(** * elasticsearch-orm: a shallow embedding of [elasticsearch-orm.js]

    The module under study maps documents of a remote search engine onto
    JavaScript objects.  Its methods are written in continuation-passing
    style: every operation takes a Node-style completion function
    [callback(err, result)] and talks to the engine through the shared
    [client] handle.

    The embedding keeps that shape.  A JavaScript value is a term of
    [value]; an operation is a function from its receiver, its arguments
    and its continuation to a computation [comp], which maps the state of
    the remote engine to the list of observable events (requests sent,
    completions delivered to the caller, uncaught exceptions).  Objects
    that the code changes in place (the field map of a document, the
    arrays [parts] and [remaining] of the populator, the queue of deferred
    calls) are passed from step to step, and handed to the continuation as
    the step left them.

    What the module takes from elsewhere is a parameter of the embedding:
    the engine client, the constructor [new model(item)] compiled by
    [./src/schemas], and the function exported by [deep-diff].  The walk
    [async.eachLimit] is written out after the [async] library.

    The file holds the module twice; the definitions follow the first
    copy, and [legacy_validate] the [validate] of the second. *)

From Stdlib Require Import List String Ascii ZArith Bool Lia Arith.
From Stdlib Require Import DecimalString.
From Stdlib Require DecimalNat DecimalFacts.
Import ListNotations.
Local Open Scope string_scope.
Local Open Scope Z_scope.

Set Implicit Arguments.
Set Warnings "-register-all".

(** ** JavaScript values *)

Module JS.

(** The constructor functions compiled by [./src/schemas] carry the index
    and the type under which their documents are stored. *)
Record Model := mkModel {
  _index : string;
  _type : string
}.

(** Values as the code meets them: primitives, arrays, plain objects (an
    ordered list of own properties, in [Object.keys] order), model
    instances and [Results] collections (an array-like object with its own
    [execQueue]).  Numbers are the integers the code uses ([limit], [skip],
    [-1], hit totals). *)
Inductive value : Type :=
| VUndefined
| VNull
| VBool (b : bool)
| VNum (n : Z)
| VStr (s : string)
| VArr (items : list value)
| VObj (props : list (string * value))
| VDoc (d : Document)
| VResults (items : list Document) (queue : list value)
with Document : Type :=
| mkDocument (model : Model) (id : value) (version : value)
             (__data : value) (__origData : value)
             (execQueue : list value).

Definition model (d : Document) : Model :=
  let 'mkDocument m _ _ _ _ _ := d in m.
Definition id (d : Document) : value :=
  let 'mkDocument _ i _ _ _ _ := d in i.
Definition version (d : Document) : value :=
  let 'mkDocument _ _ v _ _ _ := d in v.
Definition __data (d : Document) : value :=
  let 'mkDocument _ _ _ x _ _ := d in x.
Definition __origData (d : Document) : value :=
  let 'mkDocument _ _ _ _ o _ := d in o.
Definition execQueue (d : Document) : list value :=
  let 'mkDocument _ _ _ _ _ q := d in q.

Definition set_data (d : Document) (x : value) : Document :=
  let 'mkDocument m i v _ o q := d in mkDocument m i v x o q.
Definition set_execQueue (d : Document) (q : list value) : Document :=
  let 'mkDocument m i v x o _ := d in mkDocument m i v x o q.

(** [!!v] *)
Definition truthy (v : value) : bool :=
  match v with
  | VUndefined | VNull => false
  | VBool b => b
  | VNum n => negb (n =? 0)
  | VStr s => negb (String.eqb s EmptyString)
  | VArr _ | VObj _ | VDoc _ | VResults _ _ => true
  end.

(** [typeof v === "string"] *)
Definition is_string (v : value) : bool :=
  match v with VStr _ => true | _ => false end.

(** [v instanceof Array], [_.isArray(v)] *)
Definition isArray (v : value) : bool :=
  match v with VArr _ => true | _ => false end.

(** [String(v)].  Arrays join the strings of their elements with a comma,
    [null] and [undefined] elements giving the empty string. *)
Fixpoint join (sep : string) (l : list string) : string :=
  match l with
  | [] => EmptyString
  | [s] => s
  | s :: l' => s ++ sep ++ join sep l'
  end.

Definition string_of_Z (n : Z) : string :=
  NilZero.string_of_int (Z.to_int n).

Fixpoint to_string (v : value) : string :=
  match v with
  | VUndefined => "undefined"
  | VNull => "null"
  | VBool true => "true"
  | VBool false => "false"
  | VNum n => string_of_Z n
  | VStr s => s
  | VArr items =>
      join "," (map (fun x => match x with
                              | VUndefined | VNull => EmptyString
                              | _ => to_string x
                              end) items)
  | VObj _ | VDoc _ | VResults _ _ => "[object Object]"
  end.

(** A property key that is a canonical array index: a decimal numeral
    without sign and without a leading zero. *)
Definition digit_of (c : ascii) : option nat :=
  let n := nat_of_ascii c in
  if ((48 <=? n) && (n <=? 57))%nat then Some (n - 48)%nat else None.

Fixpoint digits_value (s : string) (acc : nat) : option nat :=
  match s with
  | EmptyString => Some acc
  | String c s' =>
      match digit_of c with
      | Some k => digits_value s' (10 * acc + k)%nat
      | None => None
      end
  end.

Definition index_of_key (k : string) : option nat :=
  match k with
  | EmptyString => None
  | String "0" EmptyString => Some 0%nat
  | String "0" _ => None
  | _ => digits_value k 0%nat
  end.

Fixpoint assoc (k : string) (props : list (string * value)) : option value :=
  match props with
  | [] => None
  | (k', v) :: rest => if String.eqb k k' then Some v else assoc k rest
  end.

Definition or_undefined (o : option value) : value :=
  match o with Some v => v | None => VUndefined end.

(** [v[k]]: [None] is the TypeError raised when [v] is [undefined] or
    [null].  Own properties only: members inherited from the built-in
    prototypes (methods of [String.prototype] and the like) read as
    [undefined].  A model instance answers through its schema accessors,
    which read the field map [__data]. *)
Definition get (v : value) (k : string) : option value :=
  match v with
  | VUndefined | VNull => None
  | VBool _ | VNum _ => Some VUndefined
  | VStr s =>
      match index_of_key k with
      | Some i =>
          Some (match String.get i s with
                | Some c => VStr (String c EmptyString)
                | None => VUndefined
                end)
      | None =>
          Some (if String.eqb k "length"
                then VNum (Z.of_nat (String.length s)) else VUndefined)
      end
  | VArr items =>
      match index_of_key k with
      | Some i => Some (nth i items VUndefined)
      | None =>
          Some (if String.eqb k "length"
                then VNum (Z.of_nat (List.length items)) else VUndefined)
      end
  | VObj props => Some (or_undefined (assoc k props))
  | VDoc d =>
      match __data d with
      | VObj props => Some (or_undefined (assoc k props))
      | _ => Some VUndefined
      end
  | VResults docs _ =>
      match index_of_key k with
      | Some i =>
          Some (match nth_error docs i with
                | Some d => VDoc d
                | None => VUndefined
                end)
      | None =>
          Some (if String.eqb k "length"
                then VNum (Z.of_nat (List.length docs)) else VUndefined)
      end
  end.

(** [v[k] = x] outside strict mode.  A write on a primitive is dropped; a
    write on an array at its length appends, below it replaces; a write on
    a model instance goes through the schema accessor into [__data]. *)
Fixpoint assoc_set (k : string) (x : value) (props : list (string * value))
  : list (string * value) :=
  match props with
  | [] => [(k, x)]
  | (k', v) :: rest =>
      if String.eqb k k' then (k', x) :: rest
      else (k', v) :: assoc_set k x rest
  end.

Fixpoint list_set (i : nat) (x : value) (l : list value) : list value :=
  match i, l with
  | O, [] => [x]
  | O, _ :: l' => x :: l'
  | S i', [] => VUndefined :: list_set i' x []
  | S i', y :: l' => y :: list_set i' x l'
  end.

Definition set (v : value) (k : string) (x : value) : value :=
  match v with
  | VObj props => VObj (assoc_set k x props)
  | VArr items =>
      match index_of_key k with
      | Some i => VArr (list_set i x items)
      | None => v
      end
  | VDoc d =>
      match __data d with
      | VObj props => VDoc (set_data d (VObj (assoc_set k x props)))
      | _ => v
      end
  | _ => v
  end.

(** Objects are reached from the root of a field map by the keys that lead
    to them; a write at a path rebuilds the spine above it. *)
Fixpoint get_path (root : value) (path : list string) : option value :=
  match path with
  | [] => Some root
  | k :: path' =>
      match get root k with
      | Some v => get_path v path'
      | None => None
      end
  end.

Fixpoint set_path (root : value) (path : list string) (x : value) : value :=
  match path with
  | [] => x
  | k :: path' =>
      match get root k with
      | Some v => set root k (set_path v path' x)
      | None => root
      end
  end.

(** [s.split(".")] *)
Fixpoint split_on (sep : ascii) (s : string) : list string :=
  match s with
  | EmptyString => [EmptyString]
  | String c s' =>
      match split_on sep s' with
      | [] => [String c EmptyString]
      | h :: t => if Ascii.eqb c sep then EmptyString :: h :: t else String c h :: t
      end
  end.

(** [s.split(/\s+/)], on the whitespace of the ASCII range. *)
Definition is_space (c : ascii) : bool :=
  let n := nat_of_ascii c in
  ((n =? 32) || ((9 <=? n) && (n <=? 13)))%nat.

Fixpoint split_spaces_from (in_run : bool) (s : string) : list string :=
  match s with
  | EmptyString => [EmptyString]
  | String c s' =>
      if is_space c then
        if in_run then split_spaces_from true s'
        else EmptyString :: split_spaces_from true s'
      else
        match split_spaces_from false s' with
        | [] => [String c EmptyString]
        | h :: t => String c h :: t
        end
  end.

Definition split_spaces (s : string) : list string :=
  split_spaces_from false s.

Definition key_of_nat (i : nat) : string :=
  NilZero.string_of_uint (Nat.to_uint i).

End JS.

Import JS.

(** The names every object answers to through [Object.prototype]; [get]
    does not follow them. *)
Definition inherited_name (k : string) : bool :=
  existsb (String.eqb k)
    ["constructor"; "toString"; "toLocaleString"; "valueOf"; "hasOwnProperty";
     "isPrototypeOf"; "propertyIsEnumerable"; "__proto__"; "__defineGetter__";
     "__defineSetter__"; "__lookupGetter__"; "__lookupSetter__"].

(** ** Events and computations *)

(** [new Error(message)], and the errors the engine client reports. *)
Inductive error : Type := Err (message : string).

(** The entry points of the elasticsearch client the module calls. *)
Inductive endpoint : Type := ep_index | ep_update | ep_delete | ep_search | ep_mget.

(** What the client hands to its completion function: [err], and from the
    response [response.hits.hits] and [response.hits.total]. *)
Record response : Type := mkResponse {
  res_err : option error;
  hits : list value;
  total : Z
}.

(** What can be observed of a run: a request handed to the client, the
    caller's completion function called with [(err, result)], an exception
    that nothing catches, and a call that leaves the embedding (a queued
    [exec] or [_populate], a function where a path is expected). *)
Inductive event : Type :=
| ERequest (ep : endpoint) (params : value)
| ECallback (err : option error) (result : value)
| EThrow (message : string)
| EOutside (what : string).

Definition is_request (e : event) : Prop :=
  match e with ERequest _ _ => True | _ => False end.

(** A function-valued argument slot: a function of the embedding, or any
    other value the caller left there ([undefined] when it passed none). *)
Inductive arg (K : Type) : Type :=
| AFun (k : K)
| AVal (v : value).
Arguments AVal {K} v.

Definition arg_truthy {K} (a : arg K) : bool :=
  match a with AFun _ => true | AVal v => truthy v end.

Definition missing {K} : arg K := AVal VUndefined.

(** [async.eachLimit(arr, limit, iterator, callback)] keeps the state [S]
    the iterator works on; [arr] reads the iterated array out of it, since
    the library looks at [arr.length] and [arr[started]] anew on every
    round.  Each completion is delivered before the next element is
    started, so [limit] only shows through the guard [limit <= 0]; the
    first error goes to [callback] and ends the walk.  The walk is bounded
    by the length the array has when it starts: the code under study
    shortens an array it walks, and never grows one. *)
Section EachLimit.
Context {C S A : Type}.
Variable arr : S -> list A.
Variable iterator : nat -> A -> S -> (option error -> S -> C) -> C.
Variable callback : option error -> S -> C.

Fixpoint replenish (fuel started : nat) (s : S) : C :=
  match fuel with
  | O => callback None s
  | Datatypes.S fuel' =>
      match nth_error (arr s) started with
      | None => callback None s
      | Some x =>
          iterator started x s (fun err s' =>
            match err with
            | Some e => callback (Some e) s'
            | None => replenish fuel' (Datatypes.S started) s'
            end)
      end
  end.

Definition eachLimit (limit : nat) (s : S) : C :=
  if ((List.length (arr s) =? 0) || (limit =? 0))%nat then callback None s
  else replenish (List.length (arr s)) 0 s.
End EachLimit.

(** ** The module *)

Record Options : Type := mkOptions {
  limit : value;
  skip : value;
  fields : value;
  lean : value;
  populate : value;
  sort : list (string * value);
  count : value
}.

Record Query : Type := mkQuery {
  query : value;
  qmodel : Model;
  options : Options
}.

(** A reference the populator holds in [curObj]: an object inside the
    field map, named by the keys that lead to it, or a primitive. *)
Inductive cursor : Type :=
| CRef (path : list string)
| CVal (v : value).

Definition is_ref (v : value) : bool :=
  match v with
  | VArr _ | VObj _ | VDoc _ | VResults _ _ => true
  | _ => false
  end.

Definition deref (root : value) (c : cursor) : option value :=
  match c with
  | CRef p => get_path root p
  | CVal v => Some v
  end.

(** [curObj[prop]], as a value. *)
Definition read (root : value) (c : cursor) (prop : string) : option value :=
  match deref root c with
  | Some o => get o prop
  | None => None
  end.

(** [curObj[prop]], as what [curObj] holds after [curObj = curObj[prop]]. *)
Definition descend (root : value) (c : cursor) (prop : string) : option cursor :=
  match read root c prop with
  | Some v =>
      Some (match c with
            | CRef p => if is_ref v then CRef (p ++ [prop]) else CVal v
            | CVal _ => CVal v
            end)
  | None => None
  end.

(** [curObj[prop] = x] *)
Definition assign (root : value) (c : cursor) (prop : string) (x : value) : value :=
  match c with
  | CRef p => set_path root (p ++ [prop]) x
  | CVal _ => root
  end.

Fixpoint list_update {A} (i : nat) (x : A) (l : list A) : list A :=
  match i, l with
  | _, [] => []
  | O, _ :: l' => x :: l'
  | S i', y :: l' => y :: list_update i' x l'
  end.

(** [var q = new Query(query, model)] *)
Definition new_Query (query : value) (m : Model) : Query :=
  {| query := if truthy query then query else VObj [];
     qmodel := m;
     options := {| limit := VNum 10;
                   skip := VNum 0;
                   fields := VBool true;
                   lean := VBool false;
                   populate := VStr EmptyString;
                   sort := [];
                   count := VUndefined |} |}.

Definition with_options (q : Query) (o : Options) : Query :=
  {| query := query q; qmodel := qmodel q; options := o |}.

(** The direction [Query.prototype.exec] writes for a sort entry. *)
Definition sort_dir (val : value) : string :=
  match val with
  | VStr "desc" | VStr "descending" | VNum (-1) => "desc"
  | _ => "asc"
  end.

Section Orm.

(** The state of the remote engine, and the client that answers a request
    in a state. *)
Variable world : Type.
Variable client : endpoint -> value -> world -> world * response.

(** [var diff = require("deep-diff").diff]: the function itself, and its
    [length] property (the number of parameters it declares). *)
Variable deep_diff : value -> value -> value.
Variable diff_length : nat.

(** [new model(item)], compiled by [./src/schemas]. *)
Variable new_model : Model -> value -> Document.

Definition comp : Type := world -> list event.

(** Completion functions: of a query, and of a method of a document or of
    a [Results] collection, which also sees the receiver as the method
    left it. *)
Definition callback : Type := option error -> value -> comp.
Definition method_callback (T : Type) : Type := option error -> value -> T -> comp.

(** Nothing more happens: the function returns and no completion is
    pending. *)
Definition done : comp := fun _ => [].
Definition throw (message : string) : comp := fun _ => [EThrow message].
Definition outside (what : string) : comp := fun _ => [EOutside what].

(** The exceptions the code can raise are all of one class: a call of
    something that is no function, a property read on [undefined], an
    argument list that is no array. *)
Definition TypeError : string := "TypeError".

(** [client[ep](params, function(err, response) { ... })] *)
Definition request (ep : endpoint) (params : value) (k : response -> comp) : comp :=
  fun w => let (w', r) := client ep params w in ERequest ep params :: k r w'.

(** [callback(err, result)] *)
Definition invoke (cb : arg callback) (err : option error) (result : value) : comp :=
  match cb with
  | AFun k => k err result
  | AVal _ => throw TypeError
  end.

Definition invoke_method {T} (cb : arg (method_callback T))
           (err : option error) (result : value) (this : T) : comp :=
  match cb with
  | AFun k => k err result this
  | AVal _ => throw TypeError
  end.

(** *** Query *)

Definition Results (results : list value) (m : Model) : value :=
  VResults (map (new_model m) results) [].

Definition results_items (results : value) : list Document :=
  match results with VResults docs _ => docs | _ => [] end.

Definition results_queue (results : value) : list value :=
  match results with VResults _ q => q | _ => [] end.

Section Exec.
(** [item.populate(path, callback)] on a document of the result. *)
Variable item_populate :
  Document -> value -> arg (method_callback Document) -> comp.

Definition Query_exec_with (this : Query) (cb : arg callback) : comp :=
  let model := qmodel this in
  match get (query this) "id" with
  | None => throw TypeError
  | Some id =>
      let single := is_string id in
      let query0 :=
        VObj [("index", VStr (_index model));
              ("type", VStr (_type model));
              ("from", skip (options this));
              ("size", limit (options this));
              ("fields", match fields (options this) with
                         | VStr s => VArr (map VStr (split_spaces s))
                         | f => f
                         end);
              ("body", VObj [("query", VObj [("match", query this)]);
                             ("sort", VObj (fold_left
                                (fun acc kv => assoc_set (fst kv) (VStr (sort_dir (snd kv))) acc)
                                (sort (options this)) []))])] in
      let '(searchType, query1) :=
        if truthy id
        then (ep_mget,
              set query0 "body"
                  (VObj [("ids", if isArray id then VArr [id] else id)]))
        else (ep_search, query0) in
      request searchType query1 (fun r =>
        match res_err r with
        | Some e => invoke cb (Some e) VUndefined
        | None =>
            let '(results, single) :=
              if truthy (count (options this)) then (VNum (total r), false)
              else if negb (truthy (lean (options this)))
                      || truthy (populate (options this))
                   then (Results (hits r) model, single)
                   else (VArr (hits r), single) in
            let finish (err : option error) (results : value) : comp :=
              if single
              then match get results "0" with
                   | Some first => invoke cb err first
                   | None => throw TypeError
                   end
              else invoke cb err results in
            if truthy (populate (options this))
               && negb (truthy (count (options this)))
            then eachLimit (fun docs => docs)
                   (fun i item docs k =>
                      item_populate item (populate (options this))
                        (AFun (fun err _ item' => k err (list_update i item' docs))))
                   (fun err docs => finish err (VResults docs (results_queue results)))
                   4 (results_items results)
            else finish None results
        end)
  end.

Definition ModelStatics_findById_with (m : Model) (id : value) (cb : arg callback)
  : Query * comp :=
  let q := new_Query (VObj [("id", id)]) m in
  (q, if arg_truthy cb then Query_exec_with q cb else done).
End Exec.

(** [findById] builds a fresh query, whose [populate] option is empty, so
    the populator reaches [exec] with no populator of its own. *)
Definition no_populate : Document -> value -> arg (method_callback Document) -> comp :=
  fun _ _ _ => done.

(** *** ModelPrototype *)

(** The variables of one call of [_populate]: the field map the walk
    started from, the array [parts], the array [remaining] ([None] while
    it is still the array [parts] itself) and [curObj]. *)
Record frame : Type := mkFrame {
  f_root : value;
  f_parts : list string;
  f_remaining : option (list string);
  f_curObj : cursor
}.

Definition remaining_of (f : frame) : list string :=
  match f_remaining f with Some r => r | None => f_parts f end.

(** [remaining = remaining.splice(1)]: the array loses all but its first
    element, and [remaining] is bound to the elements removed. *)
Definition splice1 (f : frame) : frame :=
  {| f_root := f_root f;
     f_parts := match f_remaining f with
                | None => firstn 1 (f_parts f)
                | Some _ => f_parts f
                end;
     f_remaining := Some (tl (remaining_of f));
     f_curObj := f_curObj f |}.

Definition with_root (f : frame) (root : value) : frame :=
  {| f_root := root; f_parts := f_parts f;
     f_remaining := f_remaining f; f_curObj := f_curObj f |}.

Definition with_remaining (f : frame) (r : list string) : frame :=
  {| f_root := f_root f; f_parts := f_parts f;
     f_remaining := Some r; f_curObj := f_curObj f |}.

Definition with_curObj (f : frame) (c : cursor) : frame :=
  {| f_root := f_root f; f_parts := f_parts f;
     f_remaining := f_remaining f; f_curObj := c |}.

(** [for (var i = 0; i < results.length; i++) curObj[prop][i] = results[i]] *)
Fixpoint copy_results (root : value) (target : list string) (results : value)
         (i n : nat) : value :=
  match n with
  | O => root
  | S n' =>
      let x := match get results (key_of_nat i) with
               | Some x => x
               | None => VUndefined
               end in
      copy_results (set_path root (target ++ [key_of_nat i]) x)
                   target results (S i) n'
  end.

Definition cursor_path (c : cursor) : list string :=
  match c with CRef p => p | CVal _ => [] end.

(** [_populate(curObj, parts, callback)], with the field map [root] that
    [curObj] points into; the callback is told the field map and the array
    [parts] as the call left them.  The fetches go through the model of
    the document, [this.model.findById].  A call nests at most as deep as
    [parts] is long, every nested call being given a shorter array;
    [fuel] bounds that depth. *)
Fixpoint _populate (fuel : nat) (this : Document) (root : value)
         (curObj : cursor) (parts : list string)
         (cb : option error -> value -> list string -> comp) : comp :=
  match fuel with
  | O => done
  | S fuel' =>
      eachLimit f_parts
        (fun _ prop f callback =>
           if (List.length (remaining_of f) =? 0)%nat then callback None f
           else
             let f := splice1 f in
             match descend (f_root f) (f_curObj f) prop with
             | None => throw TypeError
             | Some c =>
                 let f := with_curObj f c in
                 match read (f_root f) c prop with
                 | None => throw TypeError
                 | Some (VArr items) =>
                     if is_string (nth 0 items VUndefined) then
                       (* Find many by ID *)
                       snd (ModelStatics_findById_with no_populate (model this) (VArr items)
                         (AFun (fun err results =>
                            match err with
                            | Some e => callback (Some e) f
                            | None =>
                                match get results "length" with
                                | None => throw TypeError
                                | Some len =>
                                    let n := match len with
                                             | VNum n => Z.to_nat n
                                             | _ => O
                                             end in
                                    callback None
                                      (with_root f
                                         (copy_results (f_root f)
                                            (cursor_path c ++ [prop]) results 0 n))
                                end
                            end)))
                     else
                       eachLimit
                         (fun s : value * list string =>
                            match read (fst s) c prop with
                            | Some (VArr l) => l
                            | _ => []
                            end)
                         (fun i data s k =>
                            _populate fuel' this (fst s)
                              (if is_ref data
                               then CRef (cursor_path c ++ [prop; key_of_nat i])
                               else CVal data)
                              (snd s)
                              (fun err root' parts' => k err (root', parts')))
                         (fun err s =>
                            callback err (with_remaining (with_root f (fst s)) []))
                         4 (f_root f, remaining_of f)
                 | Some (VStr s) =>
                     snd (ModelStatics_findById_with no_populate (model this) (VStr s)
                       (AFun (fun err data =>
                          callback err
                            (match err with
                             | None =>
                                 if truthy data
                                 then with_root f (assign (f_root f) c prop data)
                                 else f
                             | Some _ => f
                             end))))
                 | Some _ =>
                     match descend (f_root f) c prop with
                     | Some c' => callback None (with_curObj f c')
                     | None => throw TypeError
                     end
                 end
             end)
        (fun err f => cb err (f_root f) (f_parts f))
        1
        {| f_root := root; f_parts := parts;
           f_remaining := None; f_curObj := curObj |}
  end.

(** What [async] does with the final callback it was given: it calls a
    function, and replaces a missing one by a function that does
    nothing. *)
Definition final {T} (cb : arg (method_callback T)) : option error -> T -> comp :=
  fun err this =>
    match cb with
    | AFun k => k err VUndefined this
    | AVal v => if truthy v then throw TypeError else done
    end.

Definition ModelPrototype_populate (this : Document) (path : value)
           (cb : arg (method_callback Document)) : Document * comp :=
  if negb (arg_truthy cb)
  then (set_execQueue this (execQueue this ++ [VStr "populate"; VArr [path]]), done)
  else
    let parts := split_on "." (to_string path) in
    (this,
     _populate (S (List.length parts)) this (__data this)
       (if is_ref (__data this) then CRef [] else CVal (__data this)) parts
       (fun err root _ => invoke_method cb err VUndefined (set_data this root))).

Definition ModelPrototype_diff (this : Document) : value :=
  deep_diff (__origData this) (__data this).

(** [!!(diff && diff.length > 0)], where [diff] is the imported function. *)
Definition ModelPrototype_hasChanged (this : Document) : bool :=
  (0 <? diff_length)%nat.

Definition ModelPrototype_validate (this : Document)
           (cb : arg (method_callback Document)) : comp :=
  (* NOOP: Properties are validated when set *)
  invoke_method cb None VUndefined this.

Definition ModelPrototype_save (this : Document)
           (cb : arg (method_callback Document)) : comp :=
  if negb (ModelPrototype_hasChanged this)
  then invoke_method cb None VUndefined this
  else
    ModelPrototype_validate this (AFun (fun err _ this =>
      match err with
      | Some e => invoke_method cb (Some e) VUndefined this
      | None =>
          request ep_index
            (VObj [("index", VStr (_index (model this)));
                   ("type", VStr (_type (model this)));
                   ("id", id this);
                   ("body", __data this)])
            (fun r => invoke_method cb (res_err r) (VDoc this) this)
      end)).

Definition ModelPrototype_update (this : Document) (data : arg (method_callback Document))
           (cb : arg (method_callback Document)) : comp :=
  if negb (truthy (id this))
  then invoke_method cb (Some (Err "Cannot update: no ID specified.")) VUndefined this
  else if negb (ModelPrototype_hasChanged this)
  then invoke_method cb None VUndefined this
  else
    ModelPrototype_validate this (AFun (fun err _ this =>
      match err with
      | Some e => invoke_method cb (Some e) VUndefined this
      | None =>
          request ep_update
            (VObj [("index", VStr (_index (model this)));
                   ("type", VStr (_type (model this)));
                   ("id", id this);
                   ("version", version this);
                   ("body", VObj [("doc", __data this)])])
            (fun r => invoke_method cb (res_err r) (VDoc this) this)
      end)).

Definition ModelPrototype_remove (this : Document)
           (cb : arg (method_callback Document)) : comp :=
  if negb (truthy (id this))
  then invoke_method cb (Some (Err "Cannot remove: no ID specified.")) VUndefined this
  else
    (* Use client.delete *)
    request ep_delete
      (VObj [("index", VStr (_index (model this)));
             ("type", VStr (_type (model this)));
             ("id", id this)])
      (fun r => invoke_method cb (res_err r) (VDoc this) this).

(** [this[name].apply(this, args.concat([callback]))] for the functions of
    [ModelPrototype]; a schema's own methods are not part of it.  The
    arguments fall on the parameters by position.  [diff] and
    [hasChanged] return without calling anything. *)
Definition ModelPrototype_apply (this : Document) (name : string) (args : list value)
           (cb : method_callback Document) : comp :=
  let params := (map AVal args ++ [AFun cb])%list in
  let param i := nth i params missing in
  if String.eqb name "populate" then
    match param 0%nat with
    | AVal path => snd (ModelPrototype_populate this path (param 1%nat))
    | AFun _ => outside "populate(callback)"
    end
  else if String.eqb name "save" then ModelPrototype_save this (param 0%nat)
  else if String.eqb name "update" then ModelPrototype_update this (param 0%nat) (param 1%nat)
  else if String.eqb name "remove" then ModelPrototype_remove this (param 0%nat)
  else if String.eqb name "validate" then ModelPrototype_validate this (param 0%nat)
  else if String.eqb name "diff" || String.eqb name "hasChanged" then done
  else if String.eqb name "exec" || String.eqb name "_populate" then outside name
  else throw TypeError.

(** One step of the replay: [call[0]] names the function and [call[1]]
    holds its arguments.  When [call[1]] is not an array, either it has
    no [concat] or [apply] refuses what [concat] returns, and the function
    is not entered. *)
Definition replay {T} (apply : T -> string -> list value -> method_callback T -> comp)
           (this : T) (call : value) (cb : method_callback T) : comp :=
  match get call "0", get call "1" with
  | Some name, Some (VArr args) => apply this (to_string name) args cb
  | _, _ => throw TypeError
  end.

Definition ModelPrototype_exec (this : Document)
           (cb : arg (method_callback Document)) : comp :=
  eachLimit execQueue
    (fun _ call this callback => replay ModelPrototype_apply this call
                                   (fun err _ this' => callback err this'))
    (final cb)
    1 this.

Definition item_populate (item : Document) (path : value)
           (cb : arg (method_callback Document)) : comp :=
  snd (ModelPrototype_populate item path cb).

Definition Query_exec : Query -> arg callback -> comp :=
  Query_exec_with item_populate.

(** *** Results *)

(** [async.eachLimit(this, 4, function(item, callback) { ... }, callback)]
    over the documents of a collection. *)
Definition each_item (verb : Document -> arg (method_callback Document) -> comp)
           (this : value) (cb : arg (method_callback value)) : comp :=
  eachLimit (fun docs => docs)
    (fun i item docs k =>
       verb item (AFun (fun err _ item' => k err (list_update i item' docs))))
    (fun err docs => final cb err (VResults docs (results_queue this)))
    4 (results_items this).

Definition push (this : value) (name : string) (args : list value) : value :=
  VResults (results_items this) (results_queue this ++ [VStr name; VArr args]).

Definition Results_populate (this : value) (options : value)
           (cb : arg (method_callback value)) : value * comp :=
  if negb (arg_truthy cb) then (push this "populate" [options], done)
  else (this, each_item (fun item k => item_populate item options k) this cb).

Definition Results_save (this : value) (cb : arg (method_callback value))
  : value * comp :=
  if negb (arg_truthy cb) then (push this "save" [], done)
  else (this, each_item ModelPrototype_save this cb).

Definition Results_update (this : value) (data : value)
           (cb : arg (method_callback value)) : value * comp :=
  if negb (arg_truthy cb) then (push this "update" [data], done)
  else (this, each_item (fun item k => ModelPrototype_update item (AVal data) k) this cb).

Definition Results_remove (this : value) (cb : arg (method_callback value))
  : value * comp :=
  if negb (arg_truthy cb) then (push this "remove" [], done)
  else (this, each_item ModelPrototype_remove this cb).

Definition Results_apply (this : value) (name : string) (args : list value)
           (cb : method_callback value) : comp :=
  let params := (map AVal args ++ [AFun cb])%list in
  let param i := nth i params missing in
  if String.eqb name "populate" then
    match param 0%nat with
    | AVal options => snd (Results_populate this options (param 1%nat))
    | AFun _ => outside "populate(callback)"
    end
  else if String.eqb name "save" then snd (Results_save this (param 0%nat))
  else if String.eqb name "update" then
    match param 0%nat with
    | AVal data => snd (Results_update this data (param 1%nat))
    | AFun _ => outside "update(callback)"
    end
  else if String.eqb name "remove" then snd (Results_remove this (param 0%nat))
  else if String.eqb name "exec" then outside name
  else throw TypeError.

Definition Results_exec (this : value) (cb : arg (method_callback value)) : comp :=
  eachLimit results_queue
    (fun _ call this callback => replay Results_apply this call
                                   (fun err _ this' => callback err this'))
    (final cb)
    1 this.

(** *** Query.prototype *)

Definition then_exec (this : Query) (cb : arg callback) : Query * comp :=
  (this, if arg_truthy cb then Query_exec this cb else done).

Definition Query_sort (this : Query) (opts : list (string * value)) (cb : arg callback) :=
  let o := options this in
  then_exec (with_options this
    (mkOptions (limit o) (skip o) (fields o) (lean o) (populate o) opts (count o))) cb.

Definition Query_limit (this : Query) (num : value) (cb : arg callback) :=
  let o := options this in
  then_exec (with_options this
    (mkOptions num (skip o) (fields o) (lean o) (populate o) (sort o) (count o))) cb.

Definition Query_skip (this : Query) (num : value) (cb : arg callback) :=
  let o := options this in
  then_exec (with_options this
    (mkOptions (limit o) num (fields o) (lean o) (populate o) (sort o) (count o))) cb.

Definition Query_select (this : Query) (flds : value) (cb : arg callback) :=
  let o := options this in
  then_exec (with_options this
    (mkOptions (limit o) (skip o) flds (lean o) (populate o) (sort o) (count o))) cb.

Definition Query_lean (this : Query) (cb : arg callback) :=
  let o := options this in
  then_exec (with_options this
    (mkOptions (limit o) (skip o) (fields o) (VBool true) (populate o) (sort o) (count o))) cb.

Definition Query_populate (this : Query) (opts : value) (cb : arg callback) :=
  let o := options this in
  then_exec (with_options this
    (mkOptions (limit o) (skip o) (fields o) (lean o) opts (sort o) (count o))) cb.

(** [count: function(query, callback)]: the completion function is the
    second parameter. *)
Definition Query_count (this : Query) (query : arg callback) (cb : arg callback) :=
  let o := options this in
  then_exec (with_options this
    (mkOptions (limit o) (skip o) (fields o) (lean o) (populate o) (sort o) (VBool true))) cb.

(** *** ModelStatics *)

Definition ModelStatics_where (this : Model) (query : value) (cb : arg callback)
  : Query * comp :=
  then_exec (new_Query query this) cb.

Definition ModelStatics_find (this : Model) (query : value) (cb : arg callback)
  : Query * comp :=
  then_exec (new_Query query this) cb.

Definition ModelStatics_findOne (this : Model) (query : value) (cb : arg callback)
  : Query * comp :=
  then_exec (fst (Query_limit (new_Query query this) (VNum 1) missing)) cb.

Definition ModelStatics_findById (this : Model) (id : value) (cb : arg callback)
  : Query * comp :=
  then_exec (new_Query (VObj [("id", id)]) this) cb.

Definition ModelStatics_count (this : Model) (query : value) (cb : arg callback)
  : Query * comp :=
  let q := new_Query query this in
  if arg_truthy cb then Query_count q cb missing else (q, done).

(** *** The caller's completion functions

    A caller that only records what it is told: the completion shows in
    the trace as one [ECallback] event. *)
Definition report : callback :=
  fun err result _ => [ECallback err result].

Definition report_method {T} : method_callback T :=
  fun err result _ _ => [ECallback err result].

(** A trace that ends with the one completion the caller sees, after
    requests only. *)
Definition calls_back_once (trace : list event) (err : option error) (result : value)
  : Prop :=
  exists requests,
    trace = (requests ++ [ECallback err result])%list /\ Forall is_request requests.

(** *** Chains of builder calls

    [q.sort(o).lean().populate(p)]: the methods of [Query.prototype] called
    without a callback, each returning the query for the next. *)
Inductive chain_call : Type :=
| call_sort (opts : list (string * value))
| call_limit (num : value)
| call_skip (num : value)
| call_select (flds : value)
| call_lean
| call_populate (opts : value)
| call_count.

Definition chain_step (q : Query) (c : chain_call) : Query :=
  fst (match c with
       | call_sort opts => Query_sort q opts missing
       | call_limit num => Query_limit q num missing
       | call_skip num => Query_skip q num missing
       | call_select flds => Query_select q flds missing
       | call_lean => Query_lean q missing
       | call_populate opts => Query_populate q opts missing
       | call_count => Query_count q missing missing
       end).

Definition chain (q : Query) (calls : list chain_call) : Query :=
  fold_left chain_step calls q.

Definition keeps_paging (c : chain_call) : bool :=
  match c with
  | call_limit _ | call_skip _ => false
  | _ => true
  end.

(** *** The earlier copy of [validate]

    The second copy of the module kept in the file checks the field map
    against the schema: [type] is the constructor a property is declared
    with, and a stored value passes when it is an [instanceof] it. *)
Inductive ctor : Type := String_ | Number_ | Boolean_ | Array_ | Object_.

Definition instance_of (v : value) (type : ctor) : bool :=
  match v, type with
  | VArr _, (Array_ | Object_) => true
  | (VObj _ | VDoc _ | VResults _ _), Object_ => true
  | _, _ => false
  end.

(** [prop in this.__data] *)
Definition has_property (data : value) (prop : string) : bool :=
  match data with
  | VObj props => match assoc prop props with Some _ => true | None => false end
  | _ => false
  end.

Fixpoint first_mismatch (props : list (string * ctor)) (data : value) : option string :=
  match props with
  | [] => None
  | (prop, type) :: rest =>
      if has_property data prop
         && negb (instance_of (or_undefined (get data prop)) type)
      then Some prop
      else first_mismatch rest data
  end.

Definition legacy_validate (schema_props : list (string * ctor)) (this : Document)
           (cb : arg (method_callback Document)) : comp :=
  match first_mismatch schema_props (__data this) with
  | Some prop => invoke_method cb (Some (Err ("Mis-match type: " ++ prop))) VUndefined this
  | None => invoke_method cb None VUndefined this
  end.

(** *** ModelStatics, continued *)




(** *** Deferred calls on a collection

    [rs.populate(p).save().remove()]: the verbs of [Results.prototype]
    called without a callback, each returning the collection. *)
Inductive deferred : Type :=
| defer_populate (opts : value)
| defer_save
| defer_update (data : value)
| defer_remove.

Definition defer (this : value) (d : deferred) : value :=
  fst (match d with
       | defer_populate opts => Results_populate this opts missing
       | defer_save => Results_save this missing
       | defer_update data => Results_update this data missing
       | defer_remove => Results_remove this missing
       end).

(** *** Reading a chain of builder calls *)

Definition sets_limit (c : chain_call) : bool :=
  match c with call_limit _ => true | _ => false end.

Definition sets_skip (c : chain_call) : bool :=
  match c with call_skip _ => true | _ => false end.

(** [client.delete] as [remove] calls it for a document. *)
Definition delete_request (d : Document) : event :=
  ERequest ep_delete
    (VObj [("index", VStr (_index (model d)));
           ("type", VStr (_type (model d)));
           ("id", id d)]).

End Orm.

Arguments report {world} err result _.
Arguments report_method {world T} err result _ _.

(** ** A small installation

    One model, a constructor in the manner of the earlier copy of the
    module (the fields of the hit become the fields of the document), and
    engines that answer every request alike.  The state of an engine counts
    the requests it has answered. *)
Module Sample.

Definition Post : Model := mkModel "blog" "post".

Definition new_model (m : Model) (item : value) : Document :=
  mkDocument m (or_undefined (get item "id")) VUndefined item item [].

Definition answers (found : list value) : endpoint -> value -> nat -> nat * response :=
  fun _ _ n => (S n, mkResponse None found (Z.of_nat (List.length found))).

Definition fails (message : string) : endpoint -> value -> nat -> nat * response :=
  fun _ _ n => (S n, mkResponse (Some (Err message)) [] 0).

(** [deep-diff]'s [diff(lhs, rhs, prefilter, acc)] declares four
    parameters; its result is not looked at by the code under study. *)
Definition deep_diff_length : nat := 4.

Definition hit (id title : string) : value :=
  VObj [("id", VStr id); ("title", VStr title)].

(** A document as loaded, with no field touched since. *)
Definition loaded : Document := new_model Post (hit "42" "A").

(** A document that was never stored. *)
Definition fresh : Document :=
  mkDocument Post VUndefined VUndefined
             (VObj [("title", VStr "A")]) (VObj [("title", VStr "A")]) [].

(** A document whose [author] field holds the id of another one. *)
Definition referring : Document :=
  mkDocument Post (VStr "7") VUndefined
             (VObj [("title", VStr "B"); ("author", VStr "42")])
             (VObj [("title", VStr "B"); ("author", VStr "42")]) [].

(** A document whose [title], declared a [String], holds a number. *)
Definition ill_typed : Document :=
  mkDocument Post (VStr "9") VUndefined
             (VObj [("title", VNum 5)]) (VObj [("title", VNum 5)]) [].

Definition post_schema : list (string * ctor) := [("title", String_)].

(** A document whose [author] field is an object that holds, under the
    same name, the id of another document. *)
Definition nested_reference : Document :=
  mkDocument Post (VStr "7") VUndefined
             (VObj [("author", VObj [("author", VStr "42")])])
             (VObj [("author", VObj [("author", VStr "42")])]) [].



End Sample.

(** ** Properties of the value layer *)

Example to_string_nested :
  to_string (VArr [VNum 1; VArr [VNum (-2); VNull]; VStr "x"]) = "1,-2,,x".
Proof. reflexivity. Qed.

Example split_path : split_on "." "a.b." = ["a"; "b"; EmptyString].
Proof. reflexivity. Qed.

Example split_fields : split_spaces " title  body" = [EmptyString; "title"; "body"].
Proof. reflexivity. Qed.

Example string_index : get (VStr "populate") "0" = Some (VStr "p").
Proof. reflexivity. Qed.

Example key_roundtrip : index_of_key (key_of_nat 12) = Some 12%nat.
Proof. reflexivity. Qed.

Lemma set_data_same : forall this, set_data this (__data this) = this.
Proof. now intros []. Qed.

Lemma truthy_get : forall v, truthy v = true -> forall k, get v k <> None.
Proof.
  intros v Hv k. destruct v; cbn in *; try discriminate.
  - destruct (index_of_key k); discriminate.
  - destruct (index_of_key k); discriminate.
  - destruct (__data d); discriminate.
  - destruct (index_of_key k); discriminate.
Qed.

(** ** Properties of the module *)

(** The first request of a computation is in plain sight once [request]
    is unfolded: name it. *)
Ltac sent_request client w :=
  match goal with
  | |- context [client ?ep ?params w] => exists ep, params
  end.

Section Properties.

Variable world : Type.
Variable client : endpoint -> value -> world -> world * response.
Variable diff_length : nat.
Variable new_model : Model -> value -> Document.

Lemma hasChanged_ignores_receiver :
  forall this other,
    ModelPrototype_hasChanged diff_length this
    = ModelPrototype_hasChanged diff_length other.
Proof. reflexivity. Qed.

Lemma hasChanged_true :
  forall this, (0 < diff_length)%nat -> ModelPrototype_hasChanged diff_length this = true.
Proof.
  intros this H. unfold ModelPrototype_hasChanged.
  now apply Nat.ltb_lt.
Qed.

(** C8. [update] on a document whose [id] is absent (falsy) hands the
    error "Cannot update: no ID specified." to its callback, with no
    result, whatever [data] is; nothing precedes the callback, so no
    request reaches the client. *)
Theorem update_without_id_fails :
  forall (this : Document) (data : arg (method_callback world Document))
         (k : method_callback world Document) (w : world),
    truthy (id this) = false ->
    ModelPrototype_update client diff_length this data (AFun k) w
      = k (Some (Err "Cannot update: no ID specified.")) VUndefined this w
    /\ ModelPrototype_update client diff_length this data (AFun report_method) w
      = [ECallback (Some (Err "Cannot update: no ID specified.")) VUndefined].
Proof.
  intros this data k w Hid.
  unfold ModelPrototype_update. rewrite Hid. cbn. split; reflexivity.
Qed.

(** C1. [hasChanged] tests the imported [diff] function, not the
    difference of this document: as soon as that function declares a
    parameter, [save] on a document whose fields are those it was loaded
    with goes on to validate and sends the full field map to
    [client.index] before it calls back. *)
Theorem save_unchanged_still_writes :
  forall (this : Document) (w : world),
    (0 < diff_length)%nat ->
    __data this = __origData this ->
    let params := VObj [("index", VStr (_index (model this)));
                        ("type", VStr (_type (model this)));
                        ("id", id this);
                        ("body", __origData this)] in
    ModelPrototype_save client diff_length this (AFun report_method) w
      = [ERequest ep_index params;
         ECallback (res_err (snd (client ep_index params w))) (VDoc this)].
Proof.
  intros this w Hlen Hsame params.
  unfold ModelPrototype_save.
  rewrite (@hasChanged_true this Hlen). cbn.
  unfold request. rewrite Hsame. fold params.
  destruct (client ep_index params w) as [w' r]. reflexivity.
Qed.

(** The check the earlier copy makes: the first declared property that
    is present with a value of another type is reported by name. *)
Lemma legacy_validate_reports :
  forall schema_props this prop w,
    first_mismatch schema_props (__data this) = Some prop ->
    @legacy_validate world schema_props this (AFun report_method) w
      = [ECallback (Some (Err ("Mis-match type: " ++ prop))) VUndefined].
Proof.
  intros schema_props this prop w H. unfold legacy_validate. now rewrite H.
Qed.

Lemma first_mismatch_absent :
  forall schema_props this,
    (forall prop type, In (prop, type) schema_props ->
                       has_property (__data this) prop = false) ->
    first_mismatch schema_props (__data this) = None.
Proof.
  induction schema_props as [|[prop type] rest IH]; intros this H; cbn.
  - reflexivity.
  - rewrite (H prop type) by now left. cbn.
    apply IH. intros p t Hin. apply (H p t). now right.
Qed.

(** C6 (amended). [validate] makes no check: for every document, whatever
    its field map holds, it calls back once with no error; so a property
    that is absent is no error either. *)
Theorem validate_is_a_noop :
  forall (this : Document) (k : method_callback world Document) (w : world),
    ModelPrototype_validate this (AFun k) w = k None VUndefined this w
    /\ @ModelPrototype_validate world this (AFun report_method) w
       = [ECallback None VUndefined].
Proof. intros. split; reflexivity. Qed.

(** C5. [ModelStatics.count] hands its callback to [Query.prototype.count]
    as that function's first parameter, [query]; the second, [callback],
    stays undefined, so the query is marked as a count and returned
    without being executed: no request is sent and the callback is never
    called. *)
Theorem count_never_calls_back :
  forall (this : Model) (query : value) (k : callback world) (w : world),
    snd (ModelStatics_count client new_model this query (AFun k)) w = []
    /\ count (options (fst (ModelStatics_count client new_model this query (AFun k))))
       = VBool true.
Proof. intros. split; reflexivity. Qed.

(** With the callback in second place the count is delivered: an integer,
    whatever [lean] and [populate] are set to. *)
Lemma Query_count_delivers_total :
  forall (q : Query) (arg1 : arg (callback world)) (w : world),
    get (query q) "id" <> None ->
    exists ep params,
      snd (Query_count client new_model q arg1 (AFun report)) w
      = [ERequest ep params;
         match res_err (snd (client ep params w)) with
         | Some e => ECallback (Some e) VUndefined
         | None => ECallback None (VNum (total (snd (client ep params w))))
         end].
Proof.
  intros q arg1 w Hid.
  unfold Query_count, then_exec, Query_exec, Query_exec_with. cbn.
  destruct (get (query q) "id") as [idv|]; [|congruence].
  destruct (truthy idv); unfold request; sent_request client w;
    destruct (client _ _ w) as [w' r]; cbn;
    destruct (res_err r); rewrite ?andb_false_r; reflexivity.
Qed.

(** C3. When the criteria carry a (truthy) [id], [exec] goes to the
    multi-get entry point with [body.ids] built by the conditional of
    the source: an [id] that is an array is wrapped in one more array,
    and any other [id] is passed as it is, a bare scalar included. *)
Theorem mget_ids_as_built :
  forall (q : Query) (idv : value) (cb : arg (callback world)) (w : world),
    get (query q) "id" = Some idv ->
    truthy idv = true ->
    exists params rest,
      Query_exec client new_model q cb w = ERequest ep_mget params :: rest
      /\ get params "body"
         = Some (VObj [("ids", if isArray idv then VArr [idv] else idv)]).
Proof.
  intros q idv cb w Hid Htrue.
  unfold Query_exec, Query_exec_with. rewrite Hid, Htrue. cbn.
  unfold request.
  match goal with
  | |- context [client ep_mget ?p w] =>
      exists p; destruct (client ep_mget p w) as [w' r]
  end.
  eexists. split; reflexivity.
Qed.

Lemma get_id_string_truthy :
  forall v s, get v "id" = Some (VStr s) -> truthy v = true.
Proof.
  intros v s H. destruct v; cbn in *; try discriminate; try reflexivity.
Qed.

(** C4. [find({id: s}, callback)] with a string [s] sends one request and
    calls back once.  When the client reports an error the callback gets
    the error alone; otherwise it gets the document made from the first
    hit, or [undefined] when there is no hit: never the collection. *)
Theorem find_by_scalar_id_is_single :
  forall (this : Model) (query : value) (s : string) (w : world),
    get query "id" = Some (VStr s) ->
    exists ep params,
      snd (ModelStatics_find client new_model this query (AFun report)) w
      = [ERequest ep params;
         match res_err (snd (client ep params w)) with
         | Some e => ECallback (Some e) VUndefined
         | None =>
             ECallback None
               match hits (snd (client ep params w)) with
               | [] => VUndefined
               | first :: _ => VDoc (new_model this first)
               end
         end].
Proof.
  intros this query s w Hid.
  unfold ModelStatics_find, then_exec, Query_exec, Query_exec_with, new_Query. cbn.
  rewrite (@get_id_string_truthy query s Hid), Hid. cbn.
  destruct (negb (s =? EmptyString))%string; unfold request; sent_request client w;
    destruct (client _ _ w) as [w' r]; cbn;
    destruct (res_err r); cbn; try reflexivity;
    destruct (hits r); reflexivity.
Qed.

(** The same holds under any options that neither count nor populate:
    with [lean] the callback gets the first raw hit, else the document
    made from it. *)
Lemma exec_scalar_id_takes_first :
  forall (q : Query) (s : string) (w : world),
    get (query q) "id" = Some (VStr s) ->
    truthy (count (options q)) = false ->
    truthy (populate (options q)) = false ->
    exists ep params,
      Query_exec client new_model q (AFun report) w
      = [ERequest ep params;
         match res_err (snd (client ep params w)) with
         | Some e => ECallback (Some e) VUndefined
         | None =>
             ECallback None
               match hits (snd (client ep params w)) with
               | [] => VUndefined
               | first :: _ =>
                   if truthy (lean (options q)) then first
                   else VDoc (new_model (qmodel q) first)
               end
         end].
Proof.
  intros q s w Hid Hcount Hpop.
  unfold Query_exec, Query_exec_with. rewrite Hid, Hcount, Hpop. cbn.
  destruct (negb (s =? EmptyString))%string; unfold request; sent_request client w;
    destruct (client _ _ w) as [w' r]; cbn;
    destruct (res_err r); cbn; try reflexivity;
    destruct (truthy (lean (options q))); cbn;
    destruct (hits r); reflexivity.
Qed.

Lemma chain_step_keeps :
  forall q c,
    query (chain_step client new_model q c) = query q
    /\ qmodel (chain_step client new_model q c) = qmodel q
    /\ (keeps_paging c = true ->
        limit (options (chain_step client new_model q c)) = limit (options q)
        /\ skip (options (chain_step client new_model q c)) = skip (options q)).
Proof.
  intros q c. destruct c; cbn; repeat split; try reflexivity; discriminate.
Qed.

Lemma chain_keeps :
  forall calls q,
    forallb keeps_paging calls = true ->
    query (chain client new_model q calls) = query q
    /\ limit (options (chain client new_model q calls)) = limit (options q)
    /\ skip (options (chain client new_model q calls)) = skip (options q).
Proof.
  induction calls as [|c calls IH]; intros q H; cbn in *.
  - repeat split.
  - apply andb_prop in H as [Hc Hcalls].
    destruct (IH (chain_step client new_model q c) Hcalls) as (Hq & Hl & Hs).
    destruct (chain_step_keeps q c) as (Hq' & _ & Hp).
    destruct (Hp Hc) as [Hl' Hs'].
    unfold chain in *. cbn.
    rewrite Hq, Hl, Hs. repeat split; assumption.
Qed.

(** C10. A query is made with limit 10, skip 0, fields [true], lean
    [false], an empty populate path and an empty sort; and after any
    chain of builder calls other than [limit] and [skip], what [exec]
    sends carries [size: 10] and [from: 0].  It goes to the search entry
    point when the criteria have no id. *)
Theorem query_defaults :
  forall (query0 : value) (m : Model) (calls : list chain_call)
         (cb : arg (callback world)) (w : world),
    forallb keeps_paging calls = true ->
    options (new_Query query0 m)
      = mkOptions (VNum 10) (VNum 0) (VBool true) (VBool false) (VStr EmptyString) [] VUndefined
    /\ exists ep params rest,
        Query_exec client new_model (chain client new_model (new_Query query0 m) calls) cb w
          = ERequest ep params :: rest
        /\ get params "size" = Some (VNum 10)
        /\ get params "from" = Some (VNum 0)
        /\ (forall idv, get (query (new_Query query0 m)) "id" = Some idv ->
                        truthy idv = false -> ep = ep_search).
Proof.
  intros query0 m calls cb w Hcalls. split; [reflexivity|].
  destruct (@chain_keeps calls (new_Query query0 m) Hcalls) as (Hq & Hl & Hs).
  unfold Query_exec, Query_exec_with. rewrite Hq, Hl, Hs.
  assert (Hget : get (query (new_Query query0 m)) "id" <> None).
  { apply truthy_get. cbn. destruct (truthy query0) eqn:E; [exact E | reflexivity]. }
  destruct (get (query (new_Query query0 m)) "id") as [idv|]; [|congruence].
  destruct (truthy idv) eqn:Hid; unfold request; sent_request client w;
    destruct (client _ _ w) as [w' r]; eexists;
    (split; [reflexivity|]); cbn; repeat split;
    intros idv' [= <-]; congruence.
Qed.

Lemma calls_back_once_alone :
  forall err result, calls_back_once [ECallback err result] err result.
Proof. intros. exists []. split; [reflexivity | constructor]. Qed.

Lemma calls_back_once_after :
  forall ep params err result,
    calls_back_once [ERequest ep params; ECallback err result] err result.
Proof.
  intros. exists [ERequest ep params].
  split; [reflexivity | repeat constructor].
Qed.

(** C7 (amended). [save], [update], [remove] and the [exec] of a query
    with no populate path end in exactly one call of the callback, after
    requests only.  The error of a missing id and the error of a query
    come alone; an error the client reports for a write or a delete comes
    together with the document itself as result. *)
Theorem operations_call_back_once :
  forall (this : Document) (data : arg (method_callback world Document))
         (query0 : value) (m : Model) (o : Options) (w : world),
    (exists err result,
        calls_back_once
          (ModelPrototype_save client diff_length this (AFun report_method) w) err result
        /\ (err <> None -> result = VDoc this))
    /\ (exists err result,
        calls_back_once
          (ModelPrototype_update client diff_length this data (AFun report_method) w)
          err result
        /\ (err <> None ->
            (truthy (id this) = false /\ result = VUndefined)
            \/ (truthy (id this) = true /\ result = VDoc this)))
    /\ (exists err result,
        calls_back_once (ModelPrototype_remove client this (AFun report_method) w)
          err result
        /\ (err <> None ->
            (truthy (id this) = false /\ result = VUndefined)
            \/ (truthy (id this) = true /\ result = VDoc this)))
    /\ (truthy (populate o) = false ->
        exists err result,
          calls_back_once
            (Query_exec client new_model (with_options (new_Query query0 m) o)
                        (AFun report) w) err result
          /\ (err <> None -> result = VUndefined)).
Proof.
  intros this data query0 m o w. repeat split.
  - unfold ModelPrototype_save.
    destruct (ModelPrototype_hasChanged diff_length this); cbn.
    + unfold request. destruct (client _ _ w) as [w' r]. cbn.
      exists (res_err r), (VDoc this). split; [apply calls_back_once_after | reflexivity].
    + exists None, VUndefined. split; [apply calls_back_once_alone | congruence].
  - unfold ModelPrototype_update.
    destruct (truthy (id this)) eqn:Hid.
    + destruct (ModelPrototype_hasChanged diff_length this); cbn.
      * unfold request. destruct (client _ _ w) as [w' r]. cbn.
        exists (res_err r), (VDoc this).
        split; [apply calls_back_once_after | now right].
      * exists None, VUndefined. split; [apply calls_back_once_alone | congruence].
    + cbn. eexists _, VUndefined. split; [apply calls_back_once_alone | now left].
  - unfold ModelPrototype_remove.
    destruct (truthy (id this)) eqn:Hid; cbn.
    + unfold request. destruct (client _ _ w) as [w' r]. cbn.
      exists (res_err r), (VDoc this).
      split; [apply calls_back_once_after | now right].
    + eexists _, VUndefined. split; [apply calls_back_once_alone | now left].
  - intros Hpop.
    unfold Query_exec, Query_exec_with. cbn. rewrite Hpop.
    assert (Hget : get (if truthy query0 then query0 else VObj []) "id" <> None).
    { apply truthy_get. destruct (truthy query0) eqn:E; [exact E | reflexivity]. }
    destruct (get (if truthy query0 then query0 else VObj []) "id") as [idv|];
      [|congruence].
    destruct (truthy idv); unfold request;
      destruct (client _ _ w) as [w' r]; cbn;
      (destruct (res_err r) as [e|];
       [ exists (Some e), VUndefined;
         split; [apply calls_back_once_after | reflexivity]
       | ]);
      destruct (truthy (count o)); cbn;
      try (eexists None, _; split; [apply calls_back_once_after | congruence]);
      destruct (negb (truthy (lean o)) || false); cbn;
      destruct (is_string idv); cbn;
      try (eexists None, _; split; [apply calls_back_once_after | congruence]);
      destruct (hits r); cbn;
      eexists None, _; (split; [apply calls_back_once_after | congruence]).
Qed.

(** A read on a string gives a string only at an index. *)
Lemma get_string_not_index :
  forall s prop,
    index_of_key prop = None ->
    get (VStr s) prop
    = Some (if String.eqb prop "length"
            then VNum (Z.of_nat (String.length s)) else VUndefined).
Proof. intros s prop H. cbn. now rewrite H. Qed.

(** C9. The populator first steps into the field, [curObj = curObj[prop]],
    and then looks at [curObj[prop]] once more.  When the field of the
    document holds a foreign id, a string, that second read is a read on
    the string, which gives neither an array nor a string unless [prop] is
    an index: nothing is fetched, the field keeps the id, and the callback
    is told that all went well. *)
Theorem populate_leaves_foreign_id :
  forall (this : Document) (props : list (string * value)) (prop s : string)
         (k : method_callback world Document) (w : world),
    __data this = VObj props ->
    assoc prop props = Some (VStr s) ->
    split_on "." prop = [prop] ->
    index_of_key prop = None ->
    snd (ModelPrototype_populate client new_model this (VStr prop) (AFun k)) w
      = k None VUndefined this w.
Proof.
  intros this props prop s k w Hdata Hfield Hsplit Hindex.
  unfold ModelPrototype_populate. cbn [arg_truthy negb snd to_string].
  rewrite Hsplit, Hdata.
  cbn [is_ref List.length _populate eachLimit orb Nat.eqb f_parts replenish nth_error].
  cbn [remaining_of f_remaining f_parts List.length Nat.eqb].
  unfold descend, read, deref. cbn [splice1 f_root f_curObj get_path].
  cbn [get]. rewrite Hfield. cbn [or_undefined is_ref with_curObj f_root f_curObj].
  rewrite (@get_string_not_index s prop Hindex).
  destruct (String.eqb prop "length");
    cbn [with_curObj f_root f_curObj f_parts f_remaining remaining_of
         firstn tl nth_error invoke_method];
    rewrite <- Hdata, set_data_same; reflexivity.
Qed.

(** An entry of the queue that is a string is no pair: its second
    character is no array of arguments, and the replay stops there with an
    exception. *)
Lemma exec_string_entry_throws :
  forall (this : Document) (name : string) (rest : list value)
         (cb : arg (method_callback world Document)) (w : world),
    execQueue this = VStr name :: rest ->
    ModelPrototype_exec client diff_length new_model this cb w = [EThrow TypeError].
Proof.
  intros this name rest cb w Hqueue.
  unfold ModelPrototype_exec, eachLimit. rewrite Hqueue.
  cbn [List.length Nat.eqb orb replenish]. rewrite Hqueue.
  cbn [nth_error]. unfold replay.
  assert (H1 : get (VStr name) "1"
               = Some match String.get 1 name with
                      | Some c => VStr (String c EmptyString)
                      | None => VUndefined
                      end) by reflexivity.
  rewrite H1.
  destruct (get (VStr name) "0"); [|reflexivity].
  destruct (String.get 1 name); reflexivity.
Qed.

(** C2. [populate] without a callback calls [push] with two arguments, so
    the queue grows by two entries, the name and the array of arguments,
    not by one pair; [exec] then reads the name as if it were the pair,
    finds no array in ["populate"[1]], and throws before any queued
    operation is entered or its own callback is called. *)
Theorem populate_queues_two_entries :
  forall (this : Document) (path : value)
         (cb : arg (method_callback world Document)) (w : world),
    let queued := fst (ModelPrototype_populate client new_model this path missing) in
    execQueue queued = (execQueue this ++ [VStr "populate"; VArr [path]])%list
    /\ snd (ModelPrototype_populate client new_model this path missing) w = []
    /\ (execQueue this = [] ->
        ModelPrototype_exec client diff_length new_model queued cb w = [EThrow TypeError]).
Proof.
  intros this path cb w queued.
  assert (Hqueue : execQueue queued
                   = (execQueue this ++ [VStr "populate"; VArr [path]])%list).
  { subst queued. now destruct this. }
  split; [exact Hqueue | split; [reflexivity | ]].
  intros Hempty. rewrite Hempty in Hqueue.
  exact (@exec_string_entry_throws queued "populate" [VArr [path]] cb w Hqueue).
Qed.

(** The populator fetches through [findById], whose query has an empty
    populate path: which populator [exec] is given makes no difference
    there. *)
Lemma findById_needs_no_populator :
  forall item_populate (m : Model) (idv : value) (cb : arg (callback world)),
    ModelStatics_findById_with client new_model item_populate m idv cb
    = ModelStatics_findById client new_model m idv cb.
Proof. reflexivity. Qed.

End Properties.

(** ** The properties on the small installation *)

Import Sample.

Lemma update_without_id_fails_witness :
  truthy (id fresh) = false
  /\ ModelPrototype_update (answers []) deep_diff_length fresh
       (AVal (VObj [("title", VStr "B")])) (AFun report_method) 0%nat
     = [ECallback (Some (Err "Cannot update: no ID specified.")) VUndefined].
Proof.
  split; [reflexivity|].
  exact (proj2 (@update_without_id_fails nat (answers []) deep_diff_length fresh
                  (AVal (VObj [("title", VStr "B")])) report_method 0%nat eq_refl)).
Defined.

Lemma save_unchanged_still_writes_witness :
  (0 < deep_diff_length)%nat
  /\ __data loaded = __origData loaded
  /\ ModelPrototype_save (answers []) deep_diff_length loaded (AFun report_method) 0%nat
     = [ERequest ep_index
          (VObj [("index", VStr "blog"); ("type", VStr "post"); ("id", VStr "42");
                 ("body", VObj [("id", VStr "42"); ("title", VStr "A")])]);
        ECallback None (VDoc loaded)].
Proof.
  assert (H : (0 < deep_diff_length)%nat) by (unfold deep_diff_length; lia).
  split; [exact H|]. split; [reflexivity|].
  exact (@save_unchanged_still_writes nat (answers []) deep_diff_length loaded 0%nat
           H eq_refl).
Defined.

(** C6, as first stated, fails: [title] is declared a [String], is
    present and holds a number, which the earlier copy reports by name,
    and [validate] calls back with no error. *)
Lemma validate_accepts_mismatch :
  has_property (__data ill_typed) "title" = true
  /\ get (__data ill_typed) "title" = Some (VNum 5)
  /\ instance_of (VNum 5) String_ = false
  /\ @legacy_validate nat post_schema ill_typed (AFun report_method) 0%nat
     = [ECallback (Some (Err "Mis-match type: title")) VUndefined]
  /\ @ModelPrototype_validate nat ill_typed (AFun report_method) 0%nat
     = [ECallback None VUndefined].
Proof. repeat split. Qed.

Lemma mget_ids_as_built_witness :
  get (query (new_Query (VObj [("id", VStr "42")]) Post)) "id" = Some (VStr "42")
  /\ truthy (VStr "42") = true
  /\ exists params rest,
      Query_exec (answers []) new_model (new_Query (VObj [("id", VStr "42")]) Post)
                 (AFun report) 0%nat
        = ERequest ep_mget params :: rest
      /\ get params "body" = Some (VObj [("ids", VStr "42")]).
Proof.
  split; [reflexivity|]. split; [reflexivity|].
  exact (@mget_ids_as_built nat (answers []) new_model
           (new_Query (VObj [("id", VStr "42")]) Post) (VStr "42")
           (AFun report) 0%nat eq_refl eq_refl).
Defined.

Example mget_ids_of_array :
  hd_error (Query_exec (answers []) new_model
              (new_Query (VObj [("id", VArr [VStr "X"; VStr "Y"])]) Post)
              (AFun report) 0%nat)
  = Some (ERequest ep_mget
            (VObj [("index", VStr "blog"); ("type", VStr "post");
                   ("from", VNum 0); ("size", VNum 10); ("fields", VBool true);
                   ("body", VObj [("ids", VArr [VArr [VStr "X"; VStr "Y"]])])])).
Proof. reflexivity. Qed.

Lemma find_by_scalar_id_is_single_witness :
  get (VObj [("id", VStr "42")]) "id" = Some (VStr "42")
  /\ exists ep params,
      snd (ModelStatics_find (answers [hit "42" "A"]) new_model Post
             (VObj [("id", VStr "42")]) (AFun report)) 0%nat
      = [ERequest ep params;
         match res_err (snd (answers [hit "42" "A"] ep params 0%nat)) with
         | Some e => ECallback (Some e) VUndefined
         | None =>
             ECallback None
               match hits (snd (answers [hit "42" "A"] ep params 0%nat)) with
               | [] => VUndefined
               | first :: _ => VDoc (new_model Post first)
               end
         end].
Proof.
  split; [reflexivity|].
  exact (@find_by_scalar_id_is_single nat (answers [hit "42" "A"]) new_model Post
           (VObj [("id", VStr "42")]) "42" 0%nat eq_refl).
Defined.

Example find_by_scalar_id_one_hit :
  snd (ModelStatics_find (answers [hit "42" "A"]) new_model Post
         (VObj [("id", VStr "42")]) (AFun report)) 0%nat
  = [ERequest ep_mget
       (VObj [("index", VStr "blog"); ("type", VStr "post");
              ("from", VNum 0); ("size", VNum 10); ("fields", VBool true);
              ("body", VObj [("ids", VStr "42")])]);
     ECallback None (VDoc loaded)].
Proof. reflexivity. Qed.

Example findOne_no_hit :
  snd (ModelStatics_findOne (answers []) new_model Post
         (VObj [("id", VStr "42")]) (AFun report)) 0%nat
  = [ERequest ep_mget
       (VObj [("index", VStr "blog"); ("type", VStr "post");
              ("from", VNum 0); ("size", VNum 1); ("fields", VBool true);
              ("body", VObj [("ids", VStr "42")])]);
     ECallback None VUndefined].
Proof. reflexivity. Qed.

(** C7, as first stated, fails: the engine refuses the write, and [save]
    hands the error to its callback together with the document. *)
Lemma save_error_comes_with_document :
  ModelPrototype_save (fails "unreachable") deep_diff_length loaded
    (AFun report_method) 0%nat
  = [ERequest ep_index
       (VObj [("index", VStr "blog"); ("type", VStr "post"); ("id", VStr "42");
              ("body", VObj [("id", VStr "42"); ("title", VStr "A")])]);
     ECallback (Some (Err "unreachable")) (VDoc loaded)]
  /\ VDoc loaded <> VUndefined.
Proof. split; [reflexivity | discriminate]. Qed.

Lemma operations_call_back_once_witness :
  truthy (populate (options (new_Query (VObj [("title", VStr "A")]) Post))) = false
  /\ exists err result,
      calls_back_once
        (Query_exec (fails "unreachable") new_model
           (with_options (new_Query (VObj [("title", VStr "A")]) Post)
              (options (new_Query (VObj [("title", VStr "A")]) Post)))
           (AFun report) 0%nat) err result
      /\ (err <> None -> result = VUndefined).
Proof.
  split; [reflexivity|].
  exact (proj2 (proj2 (proj2
           (@operations_call_back_once nat (fails "unreachable") deep_diff_length
              new_model loaded (AVal VUndefined) (VObj [("title", VStr "A")]) Post
              (options (new_Query (VObj [("title", VStr "A")]) Post)) 0%nat)))
           eq_refl).
Defined.

Lemma populate_leaves_foreign_id_witness :
  __data referring = VObj [("title", VStr "B"); ("author", VStr "42")]
  /\ assoc "author" [("title", VStr "B"); ("author", VStr "42")] = Some (VStr "42")
  /\ split_on "." "author" = ["author"]
  /\ index_of_key "author" = None
  /\ snd (ModelPrototype_populate (answers [hit "42" "A"]) new_model referring
           (VStr "author") (AFun report_method)) 0%nat
     = [ECallback None VUndefined].
Proof.
  repeat (split; [reflexivity|]).
  exact (@populate_leaves_foreign_id nat (answers [hit "42" "A"]) new_model referring
           [("title", VStr "B"); ("author", VStr "42")] "author" "42"
           report_method 0%nat eq_refl eq_refl eq_refl eq_refl).
Defined.

(** The branch for a foreign id is entered when the id sits one level
    further down, under the same name: then it is fetched and replaced,
    and left alone when the fetch fails. *)

Example populate_one_level_down :
  snd (ModelPrototype_populate (answers [hit "42" "A"]) new_model nested_reference
         (VStr "author") (AFun (fun err _ this _ => [ECallback err (__data this)])))
      0%nat
  = [ERequest ep_mget
       (VObj [("index", VStr "blog"); ("type", VStr "post");
              ("from", VNum 0); ("size", VNum 10); ("fields", VBool true);
              ("body", VObj [("ids", VStr "42")])]);
     ECallback None (VObj [("author", VObj [("author", VDoc loaded)])])].
Proof. reflexivity. Qed.

Example populate_fetch_error :
  snd (ModelPrototype_populate (fails "unreachable") new_model nested_reference
         (VStr "author") (AFun (fun err _ this _ => [ECallback err (__data this)])))
      0%nat
  = [ERequest ep_mget
       (VObj [("index", VStr "blog"); ("type", VStr "post");
              ("from", VNum 0); ("size", VNum 10); ("fields", VBool true);
              ("body", VObj [("ids", VStr "42")])]);
     ECallback (Some (Err "unreachable")) (__data nested_reference)].
Proof. reflexivity. Qed.

Example populate_absent_field :
  snd (ModelPrototype_populate (answers []) new_model fresh
         (VStr "author") (AFun report_method)) 0%nat
  = [EThrow TypeError].
Proof. reflexivity. Qed.

Lemma query_defaults_witness :
  forallb keeps_paging [call_sort [("date", VNum (-1))]; call_lean] = true
  /\ exists ep params rest,
      Query_exec (answers []) new_model
        (chain (answers []) new_model (new_Query (VObj [("title", VStr "A")]) Post)
               [call_sort [("date", VNum (-1))]; call_lean])
        (AFun report) 0%nat
        = ERequest ep params :: rest
      /\ get params "size" = Some (VNum 10)
      /\ get params "from" = Some (VNum 0)
      /\ (forall idv,
            get (query (new_Query (VObj [("title", VStr "A")]) Post)) "id" = Some idv ->
            truthy idv = false -> ep = ep_search).
Proof.
  split; [reflexivity|].
  exact (proj2 (@query_defaults nat (answers []) new_model
                  (VObj [("title", VStr "A")]) Post
                  [call_sort [("date", VNum (-1))]; call_lean]
                  (AFun report) 0%nat eq_refl)).
Defined.

Example search_request_sorted :
  Query_exec (answers []) new_model
    (chain (answers []) new_model (new_Query (VObj [("title", VStr "A")]) Post)
       [call_sort [("date", VNum (-1)); ("title", VStr "asc"); ("hits", VStr "descending")];
        call_lean])
    (AFun report) 0%nat
  = [ERequest ep_search
       (VObj [("index", VStr "blog"); ("type", VStr "post");
              ("from", VNum 0); ("size", VNum 10); ("fields", VBool true);
              ("body",
               VObj [("query", VObj [("match", VObj [("title", VStr "A")])]);
                     ("sort", VObj [("date", VStr "desc"); ("title", VStr "asc");
                                    ("hits", VStr "desc")])])]);
     ECallback None (VArr [])].
Proof. reflexivity. Qed.

Lemma populate_queues_two_entries_witness :
  execQueue fresh = []
  /\ ModelPrototype_exec (answers []) deep_diff_length new_model
       (fst (ModelPrototype_populate (answers []) new_model fresh (VStr "a") missing))
       (AFun report_method) 0%nat
     = [EThrow TypeError].
Proof.
  split; [reflexivity|].
  exact (proj2 (proj2
           (@populate_queues_two_entries nat (answers []) deep_diff_length new_model
              fresh (VStr "a") (AFun report_method) 0%nat)) eq_refl).
Defined.

Example populate_then_queue :
  execQueue (fst (ModelPrototype_populate (answers []) new_model fresh (VStr "a") missing))
  = [VStr "populate"; VArr [VStr "a"]].
Proof. reflexivity. Qed.

(** [save()] has no deferred mode on a document: the write is sent at
    once, and its completion finds no callback to call. *)
Example save_without_callback :
  ModelPrototype_save (answers []) deep_diff_length fresh missing 0%nat
  = [ERequest ep_index
       (VObj [("index", VStr "blog"); ("type", VStr "post"); ("id", VUndefined);
              ("body", VObj [("title", VStr "A")])]);
     EThrow TypeError].
Proof. reflexivity. Qed.

(** A collection queues the same way: two entries for one call. *)
Example results_save_queues_two_entries :
  fst (@Results_save nat (answers []) deep_diff_length (VResults [loaded] []) missing)
  = VResults [loaded] [VStr "save"; VArr []].
Proof. reflexivity. Qed.

Example results_replay_throws :
  Results_exec (answers []) deep_diff_length new_model
    (fst (@Results_save nat (answers []) deep_diff_length (VResults [loaded] []) missing))
    (AFun report_method) 0%nat
  = [EThrow TypeError].
Proof. reflexivity. Qed.

(** Had the queue held pairs, [exec] would run them one after the other in
    the order they were queued: the fetch of the populate, then the write
    of the save with the populated field, then the callback. *)
Example replay_of_pairs :
  ModelPrototype_exec (answers [hit "42" "A"]) deep_diff_length new_model
    (set_execQueue nested_reference
       [VArr [VStr "populate"; VArr [VStr "author"]]; VArr [VStr "save"; VArr []]])
    (AFun report_method) 0%nat
  = [ERequest ep_mget
       (VObj [("index", VStr "blog"); ("type", VStr "post");
              ("from", VNum 0); ("size", VNum 10); ("fields", VBool true);
              ("body", VObj [("ids", VStr "42")])]);
     ERequest ep_index
       (VObj [("index", VStr "blog"); ("type", VStr "post"); ("id", VStr "7");
              ("body", VObj [("author", VObj [("author", VDoc loaded)])])]);
     ECallback None VUndefined].
Proof. reflexivity. Qed.

(** Without a callback [ModelStatics.count] returns the query as it was
    made: it is not marked as a count either. *)
Example count_chain_is_a_find :
  count (options (fst (ModelStatics_count (answers []) new_model Post
                         (VObj [("title", VStr "A")]) missing)))
  = VUndefined.
Proof. reflexivity. Qed.

Example count_with_callback_in_second_place :
  snd (Query_count (answers [hit "42" "A"; hit "43" "A"]) new_model
         (fst (Query_lean (answers []) new_model
                 (new_Query (VObj [("title", VStr "A")]) Post) missing))
         missing (AFun report)) 0%nat
  = [ERequest ep_search
       (VObj [("index", VStr "blog"); ("type", VStr "post");
              ("from", VNum 0); ("size", VNum 10); ("fields", VBool true);
              ("body", VObj [("query", VObj [("match", VObj [("title", VStr "A")])]);
                             ("sort", VObj [])])]);
     ECallback None (VNum 2)].
Proof. reflexivity. Qed.

(** ** Further properties of the module *)

Section Further.

Variable world : Type.
Variable client : endpoint -> value -> world -> world * response.
Variable diff_length : nat.
Variable new_model : Model -> value -> Document.

(** X1. [remove] sends a delete exactly when the document has an id:
    without one the callback gets the error "Cannot remove: no ID
    specified." and the client is not called; with one the client gets the
    index, the type and the id, and its error, if any, goes to the callback
    together with the document. *)
Theorem remove_needs_id :
  forall (this : Document) (k : method_callback world Document) (w : world),
    (truthy (id this) = false ->
     ModelPrototype_remove client this (AFun k) w
     = k (Some (Err "Cannot remove: no ID specified.")) VUndefined this w)
    /\ (truthy (id this) = true ->
        ModelPrototype_remove client this (AFun k) w
        = delete_request this
          :: k (res_err (snd (client ep_delete
                                (VObj [("index", VStr (_index (model this)));
                                       ("type", VStr (_type (model this)));
                                       ("id", id this)]) w)))
               (VDoc this) this
               (fst (client ep_delete
                       (VObj [("index", VStr (_index (model this)));
                              ("type", VStr (_type (model this)));
                              ("id", id this)]) w))).
Proof.
  intros this k w. unfold ModelPrototype_remove, delete_request.
  split; intros Hid; rewrite Hid; cbn; [reflexivity|].
  unfold request. destruct (client _ _ w) as [w' r]. reflexivity.
Qed.

(** X2. [update] never looks at [data]: on a document with an id, once
    [hasChanged] answers yes, it sends [client.update] with the id, the
    version and, as [body.doc], the field map of the document as it stands;
    [data] is neither merged nor sent. *)
Theorem update_sends_current_fields :
  forall (this : Document) (data : arg (method_callback world Document))
         (k : method_callback world Document) (w : world),
    truthy (id this) = true ->
    (0 < diff_length)%nat ->
    let params := VObj [("index", VStr (_index (model this)));
                        ("type", VStr (_type (model this)));
                        ("id", id this);
                        ("version", version this);
                        ("body", VObj [("doc", __data this)])] in
    ModelPrototype_update client diff_length this data (AFun k) w
    = ERequest ep_update params
      :: k (res_err (snd (client ep_update params w))) (VDoc this) this
           (fst (client ep_update params w)).
Proof.
  intros this data k w Hid Hlen params.
  unfold ModelPrototype_update, ModelPrototype_hasChanged. rewrite Hid.
  apply Nat.ltb_lt in Hlen. rewrite Hlen. cbn.
  unfold request. fold params. destruct (client ep_update params w) as [w' r].
  reflexivity.
Qed.

(** X3. [exec] on an empty queue calls back at once, with no error and
    without a request: on a document and on a collection alike. *)
Theorem exec_of_empty_queue :
  forall (this : Document) (rs : value)
         (k : method_callback world Document) (k' : method_callback world value)
         (w : world),
    (execQueue this = [] ->
     ModelPrototype_exec client diff_length new_model this (AFun k) w
     = k None VUndefined this w)
    /\ (results_queue rs = [] ->
        Results_exec client diff_length new_model rs (AFun k') w
        = k' None VUndefined rs w).
Proof.
  intros this rs k k' w. split; intros Hq.
  - unfold ModelPrototype_exec, eachLimit. rewrite Hq. reflexivity.
  - unfold Results_exec, eachLimit. rewrite Hq. reflexivity.
Qed.

Lemma results_exec_string_entry_throws :
  forall (rs : value) (name : string) (rest : list value)
         (cb : arg (method_callback world value)) (w : world),
    results_queue rs = VStr name :: rest ->
    Results_exec client diff_length new_model rs cb w = [EThrow TypeError].
Proof.
  intros rs name rest cb w Hqueue.
  unfold Results_exec, eachLimit. rewrite Hqueue.
  cbn [List.length Nat.eqb orb replenish]. rewrite Hqueue.
  cbn [nth_error]. unfold replay.
  assert (H1 : get (VStr name) "1"
               = Some match String.get 1 name with
                      | Some c => VStr (String c EmptyString)
                      | None => VUndefined
                      end) by reflexivity.
  rewrite H1.
  destruct (get (VStr name) "0"); [|reflexivity].
  destruct (String.get 1 name); reflexivity.
Qed.

(** What one deferred call leaves in the queue. *)
Lemma defer_queue :
  forall (docs : list Document) (q : list value) (d : deferred),
    exists name args,
      defer client diff_length new_model (VResults docs q) d
      = VResults docs (q ++ [VStr name; VArr args]).
Proof.
  intros docs q d. destruct d; cbn; do 2 eexists; reflexivity.
Qed.

Lemma defer_all :
  forall (calls : list deferred) (docs : list Document) (q : list value),
    exists q',
      fold_left (defer client diff_length new_model) calls (VResults docs q)
      = VResults docs (q ++ q')
      /\ List.length q' = (2 * List.length calls)%nat
      /\ (calls <> [] -> exists name rest, q' = VStr name :: rest).
Proof.
  induction calls as [|d calls IH]; intros docs q.
  - exists []. rewrite app_nil_r. repeat split. congruence.
  - cbn [fold_left].
    destruct (defer_queue docs q d) as (name & args & ->).
    destruct (IH docs (q ++ [VStr name; VArr args])%list) as (q' & -> & Hlen & _).
    exists (VStr name :: VArr args :: q').
    rewrite <- app_assoc. repeat split.
    + cbn [List.length]. rewrite Hlen. lia.
    + intros _. now exists name, (VArr args :: q').
Qed.

(** X4. Whatever verbs are called on a fresh collection without a
    callback, its documents stay as they are and its queue grows by two
    entries a call; and as soon as one call was deferred, [exec] throws at
    the first entry: none of the deferred calls is run and the callback of
    [exec] is not called. *)
Theorem deferred_calls_never_run :
  forall (docs : list Document) (calls : list deferred)
         (cb : arg (method_callback world value)) (w : world),
    let rs := fold_left (defer client diff_length new_model) calls (VResults docs []) in
    results_items rs = docs
    /\ List.length (results_queue rs) = (2 * List.length calls)%nat
    /\ (calls <> [] ->
        Results_exec client diff_length new_model rs cb w = [EThrow TypeError]).
Proof.
  intros docs calls cb w rs.
  destruct (defer_all calls docs []) as (q' & Hrs & Hlen & Hhead).
  cbn [app] in Hrs. subst rs. rewrite Hrs. cbn [results_items results_queue].
  repeat split; [exact Hlen|].
  intros Hne. destruct (Hhead Hne) as (name & rest & ->).
  now apply results_exec_string_entry_throws with (name := name) (rest := rest).
Qed.


(** X6. A query whose criteria have no scalar id, and that neither counts
    nor populates, calls back with the whole collection: under [lean] the
    array of hits as the client returned it, otherwise a [Results] with
    one document a hit, in the order of the hits. *)
Theorem exec_delivers_collection :
  forall (q : Query) (idv : value) (w : world),
    get (query q) "id" = Some idv ->
    is_string idv = false ->
    truthy (count (options q)) = false ->
    truthy (populate (options q)) = false ->
    exists ep params,
      Query_exec client new_model q (AFun report) w
      = [ERequest ep params;
         match res_err (snd (client ep params w)) with
         | Some e => ECallback (Some e) VUndefined
         | None =>
             ECallback None
               (if truthy (lean (options q))
                then VArr (hits (snd (client ep params w)))
                else VResults (map (new_model (qmodel q))
                                   (hits (snd (client ep params w)))) [])
         end].
Proof.
  intros q idv w Hid Hstr Hcount Hpop.
  unfold Query_exec, Query_exec_with. rewrite Hid, Hcount, Hpop, Hstr. cbn.
  destruct (truthy idv); unfold request; sent_request client w;
    destruct (client _ _ w) as [w' r]; cbn;
    destruct (res_err r); cbn; try reflexivity;
    destruct (truthy (lean (options q))); reflexivity.
Qed.

(** X7. [findOne] asks the engine for one hit; but unless the criteria
    carry a scalar id, what the callback gets is still a collection, not a
    document. *)
Theorem findOne_delivers_collection :
  forall (this : Model) (query0 idv : value) (w : world),
    get (query (new_Query query0 this)) "id" = Some idv ->
    is_string idv = false ->
    exists ep params,
      get params "size" = Some (VNum 1)
      /\ snd (ModelStatics_findOne client new_model this query0 (AFun report)) w
         = [ERequest ep params;
            match res_err (snd (client ep params w)) with
            | Some e => ECallback (Some e) VUndefined
            | None =>
                ECallback None
                  (VResults (map (new_model this)
                                 (hits (snd (client ep params w)))) [])
            end].
Proof.
  intros this query0 idv w Hid Hstr.
  unfold ModelStatics_findOne, then_exec, Query_limit, Query_exec, Query_exec_with.
  cbn in Hid |- *. rewrite Hid, Hstr. cbn.
  destruct (truthy idv); unfold request; sent_request client w;
    (split; [reflexivity|]);
    destruct (client _ _ w) as [w' r]; cbn;
    destruct (res_err r); reflexivity.
Qed.

(** X8. Falsy criteria ([null], [undefined]) are replaced by the empty
    object: [find] does not throw, and sends a search whose match is
    empty, with the default paging. *)
Theorem find_by_null_matches_all :
  forall (this : Model) (query0 : value) (w : world),
    truthy query0 = false ->
    let params :=
      VObj [("index", VStr (_index this)); ("type", VStr (_type this));
            ("from", VNum 0); ("size", VNum 10); ("fields", VBool true);
            ("body", VObj [("query", VObj [("match", VObj [])]);
                           ("sort", VObj [])])] in
    snd (ModelStatics_find client new_model this query0 (AFun report)) w
    = [ERequest ep_search params;
       match res_err (snd (client ep_search params w)) with
       | Some e => ECallback (Some e) VUndefined
       | None =>
           ECallback None
             (VResults (map (new_model this)
                            (hits (snd (client ep_search params w)))) [])
       end].
Proof.
  intros this query0 w Hfalsy params.
  unfold ModelStatics_find, then_exec, Query_exec, Query_exec_with, new_Query.
  rewrite Hfalsy. cbn. unfold request. fold params.
  destruct (client ep_search params w) as [w' r]. cbn.
  destruct (res_err r); reflexivity.
Qed.









Lemma chain_app :
  forall (q : Query) (l1 l2 : list chain_call),
    chain client new_model q (l1 ++ l2)
    = chain client new_model (chain client new_model q l1) l2.
Proof. intros. unfold chain. apply fold_left_app. Qed.

Lemma chain_keeps_query :
  forall calls q, query (chain client new_model q calls) = query q.
Proof.
  induction calls as [|c calls IH]; intros q; [reflexivity|].
  unfold chain in *. cbn [fold_left]. rewrite IH. now destruct c.
Qed.

Lemma chain_keeps_limit :
  forall calls q,
    forallb (fun c => negb (sets_limit c)) calls = true ->
    limit (options (chain client new_model q calls)) = limit (options q).
Proof.
  induction calls as [|c calls IH]; intros q H; [reflexivity|].
  cbn [forallb] in H. apply andb_prop in H as [Hc Hcalls].
  unfold chain in *. cbn [fold_left]. rewrite (IH _ Hcalls).
  destruct c; try reflexivity; discriminate.
Qed.

Lemma chain_keeps_skip :
  forall calls q,
    forallb (fun c => negb (sets_skip c)) calls = true ->
    skip (options (chain client new_model q calls)) = skip (options q).
Proof.
  induction calls as [|c calls IH]; intros q H; [reflexivity|].
  cbn [forallb] in H. apply andb_prop in H as [Hc Hcalls].
  unfold chain in *. cbn [fold_left]. rewrite (IH _ Hcalls).
  destruct c; try reflexivity; discriminate.
Qed.

Lemma exec_paging :
  forall (q : Query) (cb : arg (callback world)) (w : world),
    get (query q) "id" <> None ->
    exists ep params rest,
      Query_exec client new_model q cb w = ERequest ep params :: rest
      /\ get params "size" = Some (limit (options q))
      /\ get params "from" = Some (skip (options q)).
Proof.
  intros q cb w Hid. unfold Query_exec, Query_exec_with.
  destruct (get (query q) "id") as [idv|]; [|congruence].
  destruct (truthy idv); unfold request; sent_request client w;
    destruct (client _ _ w) as [w' r]; eexists; repeat split.
Qed.

(** X11. In a chain of builder calls the last [limit] decides the [size]
    of the request and the last [skip] its [from], whatever was set before
    and whatever other builder calls follow. *)
Theorem last_paging_call_wins :
  forall (q : Query) (before after : list chain_call) (num : value)
         (cb : arg (callback world)) (w : world),
    get (query q) "id" <> None ->
    (forallb (fun c => negb (sets_limit c)) after = true ->
     exists ep params rest,
       Query_exec client new_model
         (chain client new_model q (before ++ call_limit num :: after)) cb w
       = ERequest ep params :: rest
       /\ get params "size" = Some num)
    /\ (forallb (fun c => negb (sets_skip c)) after = true ->
        exists ep params rest,
          Query_exec client new_model
            (chain client new_model q (before ++ call_skip num :: after)) cb w
          = ERequest ep params :: rest
          /\ get params "from" = Some num).
Proof.
  intros q before after num cb w Hid. split; intros Hafter.
  - set (q' := chain client new_model q (before ++ call_limit num :: after)).
    assert (Hq : get (query q') "id" <> None).
    { subst q'. now rewrite chain_keeps_query. }
    destruct (exec_paging q' cb w Hq) as (ep & params & rest & Hexec & Hsize & _).
    exists ep, params, rest. split; [exact Hexec|].
    rewrite Hsize. subst q'. rewrite chain_app.
    change (chain client new_model (chain client new_model q before)
                  (call_limit num :: after))
      with (chain client new_model
              (chain_step client new_model (chain client new_model q before)
                          (call_limit num)) after).
    now rewrite (chain_keeps_limit _ _ Hafter).
  - set (q' := chain client new_model q (before ++ call_skip num :: after)).
    assert (Hq : get (query q') "id" <> None).
    { subst q'. now rewrite chain_keeps_query. }
    destruct (exec_paging q' cb w Hq) as (ep & params & rest & Hexec & _ & Hfrom).
    exists ep, params, rest. split; [exact Hexec|].
    rewrite Hfrom. subst q'. rewrite chain_app.
    change (chain client new_model (chain client new_model q before)
                  (call_skip num :: after))
      with (chain client new_model
              (chain_step client new_model (chain client new_model q before)
                          (call_skip num)) after).
    now rewrite (chain_keeps_skip _ _ Hafter).
Qed.




(** X14. [populate] on a field the document does not have, or that holds
    [null], throws: after [curObj = curObj[prop]] the next read is a read on
    [undefined] or [null].  The callback is not called. *)
Theorem populate_absent_field_throws :
  forall (this : Document) (props : list (string * value)) (prop : string)
         (cb : arg (method_callback world Document)) (w : world),
    __data this = VObj props ->
    assoc prop props = None \/ assoc prop props = Some VNull
    \/ assoc prop props = Some VUndefined ->
    split_on "." prop = [prop] ->
    inherited_name prop = false ->
    arg_truthy cb = true ->
    snd (ModelPrototype_populate client new_model this (VStr prop) cb) w
    = [EThrow TypeError].
Proof.
  intros this props prop cb w Hdata Hfield Hsplit _ Hcb.
  unfold ModelPrototype_populate. rewrite Hcb. cbn [negb snd to_string].
  rewrite Hsplit, Hdata.
  cbn [is_ref List.length _populate eachLimit orb Nat.eqb f_parts replenish nth_error].
  cbn [remaining_of f_remaining f_parts List.length Nat.eqb].
  unfold descend, read, deref. cbn [splice1 f_root f_curObj get_path].
  cbn [get].
  destruct Hfield as [-> | [-> | ->]]; reflexivity.
Qed.



Lemma list_update_same :
  forall {A} (l : list A) i x, nth_error l i = Some x -> list_update i x l = l.
Proof.
  induction l as [|y l IH]; intros [|i] x H; cbn in *; try discriminate.
  - now injection H as ->.
  - now rewrite IH.
Qed.

Lemma skipn_nth_error :
  forall {A} (l : list A) i x,
    nth_error l i = Some x -> skipn i l = x :: skipn (S i) l.
Proof.
  induction l as [|y l IH]; intros [|i] x H; cbn in *; try discriminate.
  - now injection H as ->.
  - now apply IH.
Qed.

Lemma remove_from :
  forall (q : list value) (n i : nat) (docs : list Document) (w : world),
    (forall d, In d docs -> truthy (id d) = true) ->
    (forall ep params w', res_err (snd (client ep params w')) = None) ->
    (n + i = List.length docs)%nat ->
    replenish (fun docs : list Document => docs)
      (fun i item docs k =>
         ModelPrototype_remove client item
           (AFun (fun err _ item' => k err (list_update i item' docs))))
      (fun err docs => final (AFun report_method) err (VResults docs q))
      n i docs w
    = (map delete_request (skipn i docs) ++ [ECallback None VUndefined])%list.
Proof.
  intros q n. induction n as [|n IH]; intros i docs w Hids Hok Hlen.
  - cbn in Hlen. subst i. rewrite skipn_all. reflexivity.
  - cbn [replenish].
    destruct (nth_error docs i) as [item|] eqn:Hnth.
    2:{ apply nth_error_None in Hnth. lia. }
    rewrite (skipn_nth_error _ _ Hnth). cbn [map app].
    unfold ModelPrototype_remove at 1.
    rewrite (Hids item (nth_error_In _ _ Hnth)). cbn [negb].
    unfold request, delete_request.
    pose proof (Hok ep_delete
                    (VObj [("index", VStr (_index (model item)));
                           ("type", VStr (_type (model item)));
                           ("id", id item)]) w) as Hr.
    destruct (client ep_delete _ w) as [w' r]. cbn [snd] in Hr.
    cbn [invoke_method]. rewrite Hr, (list_update_same _ _ Hnth).
    f_equal. apply IH; [assumption | assumption | lia].
Qed.

(** X16. [remove] on a collection whose documents all have an id, with an
    engine that reports no error, sends one delete a document, in the
    order of the collection, and then calls back once with no error. *)
Theorem remove_all_members :
  forall (docs : list Document) (q : list value) (w : world),
    (forall d, In d docs -> truthy (id d) = true) ->
    (forall ep params w', res_err (snd (client ep params w')) = None) ->
    snd (Results_remove client (VResults docs q) (AFun report_method)) w
    = (map delete_request docs ++ [ECallback None VUndefined])%list.
Proof.
  intros docs q w Hids Hok.
  unfold Results_remove, each_item, eachLimit.
  cbn [arg_truthy negb snd results_items results_queue].
  destruct docs as [|d docs]; [reflexivity|].
  cbn [List.length Nat.eqb orb].
  change (map delete_request (d :: docs))
    with (map delete_request (skipn 0 (d :: docs))).
  apply remove_from; [assumption | assumption | cbn; lia].
Qed.

Lemma instance_of_primitive :
  forall v type, is_ref v = false -> instance_of v type = false.
Proof. intros v type H. destruct v, type; cbn in *; congruence. Qed.

Lemma first_mismatch_found :
  forall (props : list (string * ctor)) (data : value) prop type,
    In (prop, type) props ->
    has_property data prop = true ->
    instance_of (or_undefined (get data prop)) type = false ->
    exists offender,
      In offender (map fst props) /\ first_mismatch props data = Some offender.
Proof.
  induction props as [|[p t] props IH]; intros data prop type Hin Hhas Hinst; [easy|].
  cbn [first_mismatch].
  destruct (has_property data p
            && negb (instance_of (or_undefined (get data p)) t)) eqn:E.
  - exists p. split; [now left | reflexivity].
  - destruct Hin as [[= -> ->]|Hin].
    + rewrite Hhas, Hinst in E. discriminate.
    + destruct (IH data prop type Hin Hhas Hinst) as (o & Ho & ->).
      exists o. split; [now right | reflexivity].
Qed.

(** X17. The [validate] of the second copy goes through the declared
    properties in order and stops at the first one that is present with a
    value that is no instance of its declared type: the callback gets the
    error "Mis-match type: " followed by that name, whatever is declared
    after it.  (The declared names are taken not to be names that every
    object inherits, for which [in] answers yes on any field map.) *)
Theorem legacy_validate_names_first :
  forall (before after : list (string * ctor)) (prop : string) (type : ctor)
         (this : Document) (w : world),
    (forall p t, In (p, t) (before ++ [(prop, type)]) -> inherited_name p = false) ->
    (forall p t, In (p, t) before ->
                 has_property (__data this) p = false
                 \/ instance_of (or_undefined (get (__data this) p)) t = true) ->
    has_property (__data this) prop = true ->
    instance_of (or_undefined (get (__data this) prop)) type = false ->
    @legacy_validate world (before ++ (prop, type) :: after) this
                     (AFun report_method) w
    = [ECallback (Some (Err ("Mis-match type: " ++ prop))) VUndefined].
Proof.
  intros before after prop type this w _ Hbefore Hhas Hinst.
  apply legacy_validate_reports.
  induction before as [|[p t] before IH]; cbn [app first_mismatch].
  - now rewrite Hhas, Hinst.
  - destruct (Hbefore p t (or_introl eq_refl)) as [-> | ->]; cbn [andb negb];
      rewrite ?andb_false_r;
      apply IH; intros p' t' Hin; apply Hbefore; now right.
Qed.

(** X18. In the second copy a stored string, number or boolean is an
    instance of no constructor: as soon as one declared property is
    present with such a value, [validate] fails, naming a declared
    property, whatever type was declared for it. *)
Theorem legacy_validate_rejects_primitives :
  forall (props : list (string * ctor)) (fields : list (string * value))
         (prop : string) (type : ctor) (v : value) (this : Document) (w : world),
    (forall p t, In (p, t) props -> inherited_name p = false) ->
    In (prop, type) props ->
    __data this = VObj fields ->
    assoc prop fields = Some v ->
    is_ref v = false ->
    exists offender,
      In offender (map fst props)
      /\ @legacy_validate world props this (AFun report_method) w
         = [ECallback (Some (Err ("Mis-match type: " ++ offender))) VUndefined].
Proof.
  intros props fields prop type v this w _ Hin Hdata Hfield Hprim.
  destruct (@first_mismatch_found props (__data this) prop type Hin)
    as (offender & Hoff & Hfirst).
  - rewrite Hdata. cbn. now rewrite Hfield.
  - rewrite Hdata. cbn. rewrite Hfield. cbn. now apply instance_of_primitive.
  - exists offender. split; [exact Hoff|]. now apply legacy_validate_reports.
Qed.

(** X19. Once a query is marked as a count, whatever builder calls were
    made on it before ([lean], [populate], [limit], ...), and whether or
    not its criteria carry an id, [exec] delivers the total the client
    reports, a number, after one request; an error of the client comes
    alone. *)
Theorem count_after_any_chain :
  forall (query0 : value) (m : Model) (calls : list chain_call)
         (arg1 : arg (callback world)) (w : world),
    exists ep params,
      snd (Query_count client new_model
             (chain client new_model (new_Query query0 m) calls) arg1 (AFun report)) w
      = [ERequest ep params;
         match res_err (snd (client ep params w)) with
         | Some e => ECallback (Some e) VUndefined
         | None => ECallback None (VNum (total (snd (client ep params w))))
         end].
Proof.
  intros query0 m calls arg1 w.
  apply Query_count_delivers_total.
  rewrite chain_keeps_query. apply truthy_get. cbn.
  destruct (truthy query0) eqn:E; [exact E | reflexivity].
Qed.











Section ArrayOfIds.

Variable props inner : list (string * value).
Variable prop : string.




End ArrayOfIds.



End Further.

(** ** The further properties on the small installation *)

Lemma remove_needs_id_witness :
  (truthy (id fresh) = false
   /\ ModelPrototype_remove (answers []) fresh (AFun report_method) 0%nat
      = [ECallback (Some (Err "Cannot remove: no ID specified.")) VUndefined])
  /\ (truthy (id loaded) = true
      /\ ModelPrototype_remove (answers []) loaded (AFun report_method) 0%nat
         = [delete_request loaded; ECallback None (VDoc loaded)]).
Proof.
  split; (split; [reflexivity|]).
  - exact (proj1 (@remove_needs_id nat (answers []) fresh report_method 0%nat) eq_refl).
  - exact (proj2 (@remove_needs_id nat (answers []) loaded report_method 0%nat) eq_refl).
Defined.

Lemma update_sends_current_fields_witness :
  truthy (id loaded) = true
  /\ (0 < deep_diff_length)%nat
  /\ ModelPrototype_update (answers []) deep_diff_length loaded
       (AVal (VObj [("title", VStr "B")])) (AFun report_method) 0%nat
     = [ERequest ep_update
          (VObj [("index", VStr "blog"); ("type", VStr "post"); ("id", VStr "42");
                 ("version", VUndefined);
                 ("body", VObj [("doc", VObj [("id", VStr "42");
                                              ("title", VStr "A")])])]);
        ECallback None (VDoc loaded)].
Proof.
  assert (H : (0 < deep_diff_length)%nat) by (unfold deep_diff_length; lia).
  split; [reflexivity|]. split; [exact H|].
  exact (@update_sends_current_fields nat (answers []) deep_diff_length loaded
           (AVal (VObj [("title", VStr "B")])) report_method 0%nat eq_refl H).
Defined.

Lemma exec_of_empty_queue_witness :
  (execQueue loaded = []
   /\ ModelPrototype_exec (answers []) deep_diff_length new_model loaded
        (AFun report_method) 0%nat
      = [ECallback None VUndefined])
  /\ (results_queue (VResults [loaded] []) = []
      /\ Results_exec (answers []) deep_diff_length new_model (VResults [loaded] [])
           (AFun report_method) 0%nat
         = [ECallback None VUndefined]).
Proof.
  split; (split; [reflexivity|]).
  - exact (proj1 (@exec_of_empty_queue nat (answers []) deep_diff_length new_model
                    loaded (VResults [loaded] []) report_method report_method 0%nat)
                 eq_refl).
  - exact (proj2 (@exec_of_empty_queue nat (answers []) deep_diff_length new_model
                    loaded (VResults [loaded] []) report_method report_method 0%nat)
                 eq_refl).
Defined.

Lemma deferred_calls_never_run_witness :
  [defer_populate (VStr "author"); defer_save] <> []
  /\ Results_exec (answers []) deep_diff_length new_model
       (fold_left (defer (answers []) deep_diff_length new_model)
                  [defer_populate (VStr "author"); defer_save]
                  (VResults [loaded] []))
       (AFun report_method) 0%nat
     = [EThrow TypeError].
Proof.
  assert (H : [defer_populate (VStr "author"); defer_save] <> []) by discriminate.
  split; [exact H|].
  exact (proj2 (proj2
           (@deferred_calls_never_run nat (answers []) deep_diff_length new_model
              [loaded] [defer_populate (VStr "author"); defer_save]
              (AFun report_method) 0%nat)) H).
Defined.


Lemma exec_delivers_collection_witness :
  get (query (new_Query (VObj [("id", VArr [VStr "42"; VStr "43"])]) Post)) "id"
  = Some (VArr [VStr "42"; VStr "43"])
  /\ is_string (VArr [VStr "42"; VStr "43"]) = false
  /\ exists ep params,
      Query_exec (answers [hit "42" "A"; hit "43" "B"]) new_model
        (new_Query (VObj [("id", VArr [VStr "42"; VStr "43"])]) Post)
        (AFun report) 0%nat
      = [ERequest ep params;
         ECallback None
           (VResults [new_model Post (hit "42" "A"); new_model Post (hit "43" "B")] [])].
Proof.
  split; [reflexivity|]. split; [reflexivity|].
  destruct (@exec_delivers_collection nat (answers [hit "42" "A"; hit "43" "B"])
              new_model
              (new_Query (VObj [("id", VArr [VStr "42"; VStr "43"])]) Post)
              (VArr [VStr "42"; VStr "43"]) 0%nat eq_refl eq_refl eq_refl eq_refl)
    as (ep & params & Hexec).
  exists ep, params. exact Hexec.
Defined.

Lemma findOne_delivers_collection_witness :
  get (query (new_Query (VObj [("title", VStr "A")]) Post)) "id" = Some VUndefined
  /\ is_string VUndefined = false
  /\ exists ep params,
      get params "size" = Some (VNum 1)
      /\ snd (ModelStatics_findOne (answers [hit "42" "A"]) new_model Post
                (VObj [("title", VStr "A")]) (AFun report)) 0%nat
         = [ERequest ep params; ECallback None (VResults [loaded] [])].
Proof.
  split; [reflexivity|]. split; [reflexivity|].
  destruct (@findOne_delivers_collection nat (answers [hit "42" "A"]) new_model Post
              (VObj [("title", VStr "A")]) VUndefined 0%nat eq_refl eq_refl)
    as (ep & params & Hsize & Hexec).
  exists ep, params. split; [exact Hsize | exact Hexec].
Defined.

Lemma find_by_null_matches_all_witness :
  truthy VNull = false
  /\ snd (ModelStatics_find (answers [hit "42" "A"]) new_model Post VNull
            (AFun report)) 0%nat
     = [ERequest ep_search
          (VObj [("index", VStr "blog"); ("type", VStr "post");
                 ("from", VNum 0); ("size", VNum 10); ("fields", VBool true);
                 ("body", VObj [("query", VObj [("match", VObj [])]);
                                ("sort", VObj [])])]);
        ECallback None (VResults [loaded] [])].
Proof.
  split; [reflexivity|].
  exact (@find_by_null_matches_all nat (answers [hit "42" "A"]) new_model Post VNull
           0%nat eq_refl).
Defined.



Lemma last_paging_call_wins_witness :
  get (query (new_Query (VObj [("title", VStr "A")]) Post)) "id" <> None
  /\ (forallb (fun c => negb (sets_limit c)) [call_lean; call_skip (VNum 20)] = true
      /\ exists ep params rest,
          Query_exec (answers []) new_model
            (chain (answers []) new_model (new_Query (VObj [("title", VStr "A")]) Post)
                   ([call_limit (VNum 3)] ++ call_limit (VNum 5)
                      :: [call_lean; call_skip (VNum 20)]))
            (AFun report) 0%nat
          = ERequest ep params :: rest
          /\ get params "size" = Some (VNum 5))
  /\ (forallb (fun c => negb (sets_skip c)) [call_lean; call_limit (VNum 2)] = true
      /\ exists ep params rest,
          Query_exec (answers []) new_model
            (chain (answers []) new_model (new_Query (VObj [("title", VStr "A")]) Post)
                   ([call_skip (VNum 3)] ++ call_skip (VNum 40)
                      :: [call_lean; call_limit (VNum 2)]))
            (AFun report) 0%nat
          = ERequest ep params :: rest
          /\ get params "from" = Some (VNum 40)).
Proof.
  assert (H : get (query (new_Query (VObj [("title", VStr "A")]) Post)) "id" <> None)
    by discriminate.
  split; [exact H|]. split; (split; [reflexivity|]).
  - exact (proj1 (@last_paging_call_wins nat (answers []) new_model
                    (new_Query (VObj [("title", VStr "A")]) Post)
                    [call_limit (VNum 3)] [call_lean; call_skip (VNum 20)] (VNum 5)
                    (AFun report) 0%nat H) eq_refl).
  - exact (proj2 (@last_paging_call_wins nat (answers []) new_model
                    (new_Query (VObj [("title", VStr "A")]) Post)
                    [call_skip (VNum 3)] [call_lean; call_limit (VNum 2)] (VNum 40)
                    (AFun report) 0%nat H) eq_refl).
Defined.



Lemma populate_absent_field_throws_witness :
  __data fresh = VObj [("title", VStr "A")]
  /\ assoc "author" [("title", VStr "A")] = None
  /\ split_on "." "author" = ["author"]
  /\ inherited_name "author" = false
  /\ arg_truthy (AFun (@report_method nat Document)) = true
  /\ snd (ModelPrototype_populate (answers [hit "42" "A"]) new_model fresh
           (VStr "author") (AFun report_method)) 0%nat
     = [EThrow TypeError].
Proof.
  repeat (split; [reflexivity|]).
  exact (@populate_absent_field_throws nat (answers [hit "42" "A"]) new_model fresh
           [("title", VStr "A")] "author" (AFun report_method) 0%nat
           eq_refl (or_introl eq_refl) eq_refl eq_refl eq_refl).
Defined.


Lemma remove_all_members_witness :
  (forall d, In d [loaded; referring] -> truthy (id d) = true)
  /\ (forall ep params w', res_err (snd (answers [] ep params w')) = None)
  /\ snd (Results_remove (answers []) (VResults [loaded; referring] [])
           (AFun report_method)) 0%nat
     = [delete_request loaded; delete_request referring; ECallback None VUndefined].
Proof.
  assert (Hids : forall d, In d [loaded; referring] -> truthy (id d) = true).
  { intros d [<- | [<- | []]]; reflexivity. }
  assert (Hok : forall ep params w', res_err (snd (answers [] ep params w')) = None)
    by reflexivity.
  split; [exact Hids|]. split; [exact Hok|].
  exact (@remove_all_members nat (answers []) [loaded; referring] [] 0%nat Hids Hok).
Defined.

Lemma legacy_validate_names_first_witness :
  (forall p t, In (p, t) ([("tags", Array_)] ++ [("title", String_)]) ->
               inherited_name p = false)
  /\ (forall p t, In (p, t) [("tags", Array_)] ->
                  has_property (VObj [("tags", VArr []); ("title", VNum 5)]) p = false
                  \/ instance_of
                       (or_undefined
                          (get (VObj [("tags", VArr []); ("title", VNum 5)]) p))
                       t = true)
  /\ has_property (VObj [("tags", VArr []); ("title", VNum 5)]) "title" = true
  /\ instance_of (VNum 5) String_ = false
  /\ @legacy_validate nat ([("tags", Array_)] ++ ("title", String_) :: [("id", String_)])
       (mkDocument Post (VStr "9") VUndefined
                   (VObj [("tags", VArr []); ("title", VNum 5)]) VNull [])
       (AFun report_method) 0%nat
     = [ECallback (Some (Err "Mis-match type: title")) VUndefined].
Proof.
  assert (Hnames :
            forall p t, In (p, t) ([("tags", Array_)] ++ [("title", String_)]) ->
                        inherited_name p = false).
  { intros p t [[= <- <-] | [[= <- <-] | []]]; reflexivity. }
  assert (Hbefore :
            forall p t, In (p, t) [("tags", Array_)] ->
              has_property (VObj [("tags", VArr []); ("title", VNum 5)]) p = false
              \/ instance_of
                   (or_undefined (get (VObj [("tags", VArr []); ("title", VNum 5)]) p))
                   t = true).
  { intros p t [[= <- <-] | []]. now right. }
  split; [exact Hnames|]. split; [exact Hbefore|]. repeat (split; [reflexivity|]).
  exact (@legacy_validate_names_first nat [("tags", Array_)] [("id", String_)]
           "title" String_
           (mkDocument Post (VStr "9") VUndefined
                       (VObj [("tags", VArr []); ("title", VNum 5)]) VNull [])
           0%nat Hnames Hbefore eq_refl eq_refl).
Defined.

Lemma legacy_validate_rejects_primitives_witness :
  (forall p t, In (p, t) post_schema -> inherited_name p = false)
  /\ In ("title", String_) post_schema
  /\ __data loaded = VObj [("id", VStr "42"); ("title", VStr "A")]
  /\ assoc "title" [("id", VStr "42"); ("title", VStr "A")] = Some (VStr "A")
  /\ is_ref (VStr "A") = false
  /\ exists offender,
      In offender (map fst post_schema)
      /\ @legacy_validate nat post_schema loaded (AFun report_method) 0%nat
         = [ECallback (Some (Err ("Mis-match type: " ++ offender))) VUndefined].
Proof.
  assert (Hnames : forall p t, In (p, t) post_schema -> inherited_name p = false).
  { intros p t [[= <- <-] | []]; reflexivity. }
  assert (Hin : In ("title", String_) post_schema) by now left.
  split; [exact Hnames|]. split; [exact Hin|]. repeat (split; [reflexivity|]).
  exact (@legacy_validate_rejects_primitives nat post_schema
           [("id", VStr "42"); ("title", VStr "A")] "title" String_ (VStr "A")
           loaded 0%nat Hnames Hin eq_refl eq_refl eq_refl).
Defined.

